(** * Income / expense ledger (app.py): aggregation, chart series, catalog, store

    A shallow embedding of the dashboard script.  The pandas objects are
    modelled by what the script observes of them:

    - a [DataFrame] is the list of its rows, in index order;
    - a column cell of object dtype is [Some text] or [None] (NaN), the
      date column holds a day or [NaT];
    - the amount column is numeric; amounts are exact integers counted in
      satang (1/100 baht), so sums are exact and binary rounding of the
      float64 column is outside the model;
    - a [Series] produced by groupby is the list of its (label, value)
      pairs in index order.

    Column names of the script: วันที่ = [date], ประเภท = [trans_type],
    หมวดหมู่ = [category], รายละเอียด = [description], จำนวนเงิน = [amount]
    (the session keys the form uses for the same fields). *)

From Stdlib Require Import ZArith Lia.
From stdpp Require Import base option list list_monad sets sorting strings.

Set Warnings "-clear-no-such-hyp".

Local Open Scope Z_scope.

(** ** Data model *)

(** Object-dtype cell: text, or NaN for an empty field of the file. *)
Abbreviation cell := (option string).

Record calendar := { year : Z; month : Z; day : Z }.

(** Date cell after [pd.to_datetime]: a day, or the NaT marker. *)
Inductive date_cell :=
| NaT
| Day (d : calendar).

Record Transaction := {
  date : date_cell;
  trans_type : cell;
  category : cell;
  description : cell;
  amount : Z
}.

Abbreviation DataFrame := (list Transaction).

(** Labels of the type selectbox (app.py:79). *)
Definition INCOME : string := "รายรับ".
Definition EXPENSE : string := "รายจ่าย".

(** ** Aggregator *)

(** [cell == label], elementwise: NaN compares unequal to every label. *)
Definition cell_eqb (c : cell) (label : string) : bool :=
  match c with
  | Some t => String.eqb t label
  | None => false
  end.

(** [df['ประเภท'] == label]: the boolean mask over the rows. *)
Definition type_mask (label : string) (df : DataFrame) : list bool :=
  map (fun r => cell_eqb (trans_type r) label) df.

(** [df[mask]]: boolean indexing keeps the rows whose mask entry is true. *)
Fixpoint select {A : Type} (mask : list bool) (rows : list A) : list A :=
  match mask, rows with
  | b :: mask', r :: rows' =>
      if b then r :: select mask' rows' else select mask' rows'
  | _, _ => []
  end.

(** app.py:136-137 *)
Definition income_df (df : DataFrame) : DataFrame :=
  select (type_mask INCOME df) df.
Definition expense_df (df : DataFrame) : DataFrame :=
  select (type_mask EXPENSE df) df.

(** A row that neither mask selects. *)
Definition other_typed (r : Transaction) : Prop :=
  trans_type r <> Some INCOME /\ trans_type r <> Some EXPENSE.

(** [Series.sum()]: accumulate from 0. *)
Definition series_sum (values : list Z) : Z :=
  fold_left Z.add values 0.

(** [records['จำนวนเงิน'].sum() if not records.empty else 0] (app.py:161-162) *)
Definition total (records : DataFrame) : Z :=
  match records with
  | [] => 0
  | _ => series_sum (map amount records)
  end.

Definition total_income (df : DataFrame) : Z := total (income_df df).
Definition total_expense (df : DataFrame) : Z := total (expense_df df).

(** app.py:163 *)
Definition balance (df : DataFrame) : Z := total_income df - total_expense df.

(** The sum of the amounts of a record list, by recursion on the list:
    what [total] and the group sums are compared with. *)
Fixpoint amounts_sum (records : DataFrame) : Z :=
  match records with
  | [] => 0
  | r :: rest => amount r + amounts_sum rest
  end.

(** *** Group by category and sum (app.py:179-180) *)

(** A float Series indexed by category label, in index order. *)
Abbreviation Series := (list (string * Z)).

(** [groupby] accumulates each row into the group of its key and keeps the
    group keys sorted (sort=True); Python compares [str] by code point,
    which is the byte order of the UTF-8 text. *)
Fixpoint add_to_group (k : string) (v : Z) (groups : Series) : Series :=
  match groups with
  | [] => [(k, v)]
  | (k', v') :: rest =>
      match String.compare k k' with
      | Lt => (k, v) :: groups
      | Eq => (k', v' + v) :: rest
      | Gt => (k', v') :: add_to_group k v rest
      end
  end.

(** The order of the group keys, and a Series whose index is sorted by it. *)
Definition key_lt (k k' : string) : Prop := String.compare k k' = Lt.

Definition sorted_index (s : Series) : Prop := StronglySorted key_lt (s.*1).

(** A row whose key is NaN belongs to no group (dropna=True). *)
Definition add_row (groups : Series) (r : Transaction) : Series :=
  match category r with
  | Some k => add_to_group k (amount r) groups
  | None => groups
  end.

(** [records.groupby('หมวดหมู่')['จำนวนเงิน'].sum()] *)
Definition groupby_sum (records : DataFrame) : Series :=
  fold_left add_row records [].

Definition income_by_category (df : DataFrame) : Series :=
  groupby_sum (income_df df).
Definition expense_by_category (df : DataFrame) : Series :=
  groupby_sum (expense_df df).

(** The records of one category, in ledger order. *)
Definition in_category (k : string) (records : DataFrame) : DataFrame :=
  filter (fun r => category r = Some k) records.

(** What the accumulated groups are after the rows [records] have been
    added: one entry per category some row has, holding the sum of the
    amounts of the rows of that category. *)
Definition grouped (records : DataFrame) (s : Series) : Prop :=
  sorted_index s /\
  forall k v, (k, v) ∈ s <->
    (exists r, r ∈ records /\ category r = Some k) /\
    v = amounts_sum (in_category k records).

(** ** Chart data builder (app.py:182-185) *)

(** [Index.unique()]: labels in order of first appearance; [seen] is the
    table of labels met so far. *)
Fixpoint unique_from (seen labels : list string) : list string :=
  match labels with
  | [] => []
  | x :: rest =>
      if bool_decide (x ∈ seen) then unique_from seen rest
      else x :: unique_from (x :: seen) rest
  end.

Definition unique (labels : list string) : list string :=
  unique_from [] labels.

(** [Series.get(label, default)] on a Series whose index has no repeated
    label. *)
Fixpoint get (s : Series) (label : string) (default : Z) : Z :=
  match s with
  | [] => default
  | (k, v) :: rest => if String.eqb k label then v else get rest label default
  end.

(** [pd.concat([a, b]).index.unique()] *)
Definition all_categories (income expense : Series) : list string :=
  unique ((income ++ expense).*1).

Definition build_series (income expense : Series)
  : list string * list Z * list Z :=
  let cats := all_categories income expense in
  (cats,
   (fun cat => get income cat 0) <$> cats,
   (fun cat => get expense cat 0) <$> cats).

(** ** Dashboard (app.py:135-217) *)

Inductive chart_view :=
| Chart (series : list string * list Z * list Z)
| InsufficientData.

(** [label in df['ประเภท'].values] *)
Definition has_type (label : string) (df : DataFrame) : bool :=
  existsb (fun r => cell_eqb (trans_type r) label) df.

(** app.py:177-217: the chart is drawn when the ledger holds a row of either
    type, otherwise the notice is shown. *)
Definition chart_section (df : DataFrame) : chart_view :=
  if has_type INCOME df || has_type EXPENSE df
  then Chart (build_series (income_by_category df) (expense_by_category df))
  else InsufficientData.

Record dashboard_view := {
  income_table : DataFrame;
  expense_table : DataFrame;
  summary : Z * Z * Z;
  chart : chart_view
}.

(** The whole display block is skipped for an empty ledger (app.py:135). *)
Definition dashboard (df : DataFrame) : option dashboard_view :=
  match df with
  | [] => None
  | _ =>
      Some {| income_table := income_df df;
              expense_table := expense_df df;
              summary := (total_income df, total_expense df, balance df);
              chart := chart_section df |}
  end.

(** ** Record store (app.py:24-45, 109-118) *)

(** Exceptions the load block tells apart; [OtherError] stands for every
    other exception class (ParserError, KeyError, OSError, ...). *)
Inductive exn :=
| EmptyDataError
| UnicodeDecodeError
| OtherError.

(** Result of a call that may raise. *)
Inductive outcome (A : Type) :=
| Returned (a : A)
| Raised (e : exn).
Arguments Returned {A} a.
Arguments Raised {A} e.

#[global] Instance outcome_ret : MRet outcome := @Returned.
#[global] Instance outcome_bind : MBind outcome := fun A B f m =>
  match m with
  | Returned a => f a
  | Raised e => Raised e
  end.

(** [try: body except ...: handler] *)
Definition try_except {A : Type} (body : outcome A) (handler : exn -> outcome A)
  : outcome A :=
  match body with
  | Returned a => Returned a
  | Raised e => handler e
  end.

Inductive encoding :=
| Utf8Sig
| Tis620.

(** [errors=] argument of [pd.to_datetime]. *)
Inductive errors_mode :=
| ErrorsRaise
| ErrorsCoerce.

(** A row as [pd.read_csv] delivers it: the date column is still text. *)
Record raw_row := {
  raw_date : cell;
  raw_type : cell;
  raw_category : cell;
  raw_description : cell;
  raw_amount : Z
}.

Definition with_date (row : raw_row) (d : date_cell) : Transaction :=
  {| date := d;
     trans_type := raw_type row;
     category := raw_category row;
     description := raw_description row;
     amount := raw_amount row |}.

(** [df['วันที่'] = dates]: the column is replaced, row by row. *)
Definition assign_dates (rows : list raw_row) (dates : list date_cell)
  : DataFrame :=
  zip_with with_date rows dates.

Section Store.
(** The two library calls of the load block: [pd.read_csv] on the bytes
    of transactions.csv under an encoding, and the parser of one date
    text that [pd.to_datetime] applies to the cells of the column (under
    the format it settles on for that column). *)
Variable read_csv : encoding -> string -> outcome (list raw_row).
Variable strptime : string -> option calendar.

(** One cell of the date column: NaN stays missing; a text that does not
    parse raises under errors='raise' and becomes NaT under 'coerce'. *)
Definition convert_date (errors : errors_mode) (c : cell) : outcome date_cell :=
  match c with
  | None => Returned NaT
  | Some text =>
      match strptime text, errors with
      | Some d, _ => Returned (Day d)
      | None, ErrorsCoerce => Returned NaT
      | None, ErrorsRaise => Raised OtherError
      end
  end.

Definition to_datetime (errors : errors_mode) (column : list cell)
  : outcome (list date_cell) :=
  mapM (convert_date errors) column.

(** app.py:29-30 and 41-42 *)
Definition read_frame (enc : encoding) (bytes : string) : outcome DataFrame :=
  rows ← read_csv enc bytes;
  dates ← to_datetime ErrorsCoerce (raw_date <$> rows);
  mret (assign_dates rows dates).

(** app.py:25-45; [file] is [None] when transactions.csv does not exist,
    else its bytes. *)
Definition load (file : option string) : outcome DataFrame :=
  try_except
    (match file with
     | Some bytes =>
         if bool_decide (0 < String.length bytes)%nat
         then read_frame Utf8Sig bytes
         else Returned []
     | None => Returned []
     end)
    (fun e =>
       match e with
       | EmptyDataError => Returned []
       | UnicodeDecodeError =>
           try_except
             (match file with
              | Some bytes => read_frame Tis620 bytes
              | None => Raised OtherError
              end)
             (fun _ => Returned [])
       | OtherError => Raised e
       end).

(** The date cell [pd.to_datetime(errors='coerce')] leaves for a cell. *)
Definition coerced (c : cell) : date_cell :=
  match c with
  | Some text =>
      match strptime text with
      | Some d => Day d
      | None => NaT
      end
  | None => NaT
  end.

(** A raw row with its date cell converted. *)
Definition dated (row : raw_row) : Transaction :=
  with_date row (coerced (raw_date row)).
End Store.

(** [pd.concat([df, new_data], ignore_index=True)] (app.py:115) *)
Definition append (df : DataFrame) (new_data : Transaction) : DataFrame :=
  df ++ [new_data].

(** *** Text of one cell in the file *)

(** What [to_csv] writes for an object cell: the text, nothing for NaN
    (na_rep=''). *)
Definition to_csv_cell (c : cell) : string := default "" c.

(** The texts [pd.read_csv] takes for a missing value when called without
    [na_values] / [keep_default_na], as app.py:29 and 41 call it (the list
    of pandas 2; older versions lack only "None"). *)
Definition na_values : list string :=
  [""; "#N/A"; "#N/A N/A"; "#NA"; "-1.#IND"; "-1.#QNAN"; "-NaN"; "-nan";
   "1.#IND"; "1.#QNAN"; "<NA>"; "N/A"; "NA"; "NULL"; "NaN"; "None"; "n/a";
   "nan"; "null"].

(** What [pd.read_csv] makes of the text of one cell of a column that
    stays of object dtype. *)
Definition read_csv_cell (text : string) : cell :=
  if bool_decide (text ∈ na_values) then None else Some text.

(** ** Category catalog and entry form (app.py:48-107) *)

Module Form.

Record session_state := {
  trans_type : string;
  category : string;
  description : string;
  amount : Z;
  show_success_message : bool
}.

(** app.py:48-58 *)
Definition initial : session_state :=
  {| trans_type := "รายรับ"; category := "เงินรายวัน"; description := "";
     amount := 0; show_success_message := false |}.

Definition set_category (c : string) (st : session_state) : session_state :=
  {| trans_type := trans_type st; category := c;
     description := description st; amount := amount st;
     show_success_message := show_success_message st |}.

Definition set_trans_type (t : string) (st : session_state) : session_state :=
  {| trans_type := t; category := category st;
     description := description st; amount := amount st;
     show_success_message := show_success_message st |}.

(** app.py:60-65 *)
Definition update_category_options (st : session_state) : session_state :=
  if String.eqb (trans_type st) "รายรับ"
  then set_category "เงินรายวัน" st
  else set_category "ค่าอาหาร" st.

(** Options of the type selectbox (app.py:79). *)
Definition type_options : list string := ["รายรับ"; "รายจ่าย"].

(** app.py:85-88 *)
Definition category_options (t : string) : list string :=
  if String.eqb t "รายรับ"
  then ["เงินรายวัน"; "รายได้อื่นๆ"]
  else ["ค่าอาหาร"; "ค่าเดินทาง"; "ค่าใช้จ่ายอื่นๆ"].

(** The type selectbox (app.py:77-82): picking a value other than the
    current one stores it under its key and runs the on_change callback. *)
Definition select_trans_type (t : string) (st : session_state) : session_state :=
  if String.eqb t (trans_type st) then st
  else update_category_options (set_trans_type t st).

(** The category the callback leaves selected for a type. *)
Definition default_category (t : string) : string :=
  category (update_category_options (set_trans_type t initial)).

(** app.py:100-103: the submit button is enabled. *)
Definition submittable (st : session_state) : bool :=
  negb (String.eqb (description st) "") && (0 <? amount st).

End Form.

(** The row the submit handler builds from the form (app.py:111-112). *)
Definition new_data (d : calendar) (st : Form.session_state) : Transaction :=
  {| date := Day d;
     trans_type := Some (Form.trans_type st);
     category := Some (Form.category st);
     description := Some (Form.description st);
     amount := Form.amount st |}.

(** ** The script as a session (app.py:24-131)

    Streamlit runs the script from top to bottom once per interaction, with
    the session state kept between runs.  [App.run] is one such run: the
    widget that changed stores its value (and runs its callback), then the
    script loads the ledger if the session has none, handles a submission,
    shows the success message and draws the dashboard. *)

Module App.

Record state := {
  session_df : option DataFrame;  (* st.session_state.df; None: key absent *)
  form : Form.session_state;
  date_value : calendar;          (* the date widget, key "date" *)
  disk : option string            (* transactions.csv; None: no such file *)
}.

(** What the user can do between two runs. *)
Inductive event :=
| Rerun
| PickDate (d : calendar)
| PickType (t : string)
| PickCategory (c : string)
| EditDescription (text : string)
| EditAmount (a : Z)
| ClickSubmit.

Definition set_description (text : string) (f : Form.session_state)
  : Form.session_state :=
  {| Form.trans_type := Form.trans_type f; Form.category := Form.category f;
     Form.description := text; Form.amount := Form.amount f;
     Form.show_success_message := Form.show_success_message f |}.

Definition set_amount (a : Z) (f : Form.session_state) : Form.session_state :=
  {| Form.trans_type := Form.trans_type f; Form.category := Form.category f;
     Form.description := Form.description f; Form.amount := a;
     Form.show_success_message := Form.show_success_message f |}.

Definition set_show_success_message (b : bool) (f : Form.session_state)
  : Form.session_state :=
  {| Form.trans_type := Form.trans_type f; Form.category := Form.category f;
     Form.description := Form.description f; Form.amount := Form.amount f;
     Form.show_success_message := b |}.

Definition with_form (f : Form.session_state) (st : state) : state :=
  {| session_df := session_df st; form := f;
     date_value := date_value st; disk := disk st |}.

Definition with_date_value (d : calendar) (st : state) : state :=
  {| session_df := session_df st; form := form st;
     date_value := d; disk := disk st |}.

Definition with_df (df : DataFrame) (st : state) : state :=
  {| session_df := Some df; form := form st;
     date_value := date_value st; disk := disk st |}.

Definition with_disk (bytes : string) (st : state) : state :=
  {| session_df := session_df st; form := form st;
     date_value := date_value st; disk := Some bytes |}.

(** What the widgets let through: a selectbox offers its options only
    (app.py:77-94), the number input has min_value=0.0 (app.py:97), and the
    submit button is disabled unless the description is non-empty and the
    amount positive (app.py:100-107). *)
Definition delivered (ev : event) (st : state) : bool :=
  match ev with
  | PickType t => bool_decide (t ∈ Form.type_options)
  | PickCategory c =>
      bool_decide (c ∈ Form.category_options (Form.trans_type (form st)))
  | EditAmount a => bool_decide (0 <= a)
  | ClickSubmit => Form.submittable (form st)
  | Rerun | PickDate _ | EditDescription _ => true
  end.

(** The widget stores its new value under its key; the type selectbox also
    runs its callback. *)
Definition widget_update (ev : event) (st : state) : state :=
  match ev with
  | Rerun | ClickSubmit => st
  | PickDate d => with_date_value d st
  | PickType t => with_form (Form.select_trans_type t (form st)) st
  | PickCategory c => with_form (Form.set_category c (form st)) st
  | EditDescription text => with_form (set_description text (form st)) st
  | EditAmount a => with_form (set_amount a (form st)) st
  end.

(** The session once the changed widget has stored its value: an event the
    widgets do not let through leaves the session as it is. *)
Definition updated (ev : event) (st : state) : state :=
  if delivered ev st then widget_update ev st else st.

(** What a run puts on the page, as far as the ledger decides it. *)
Record screen := {
  success_shown : bool;
  view : option dashboard_view
}.

Section Script.
Variable read_csv : encoding -> string -> outcome (list raw_row).
Variable strptime : string -> option calendar.
(** [df.to_csv("transactions.csv", ...)]: the bytes written, or the
    exception of a failed write. *)
Variable to_csv : DataFrame -> outcome string.

(** app.py:24-45: the file is read only while the session holds no ledger. *)
Definition ensure_loaded (st : state) : state * outcome DataFrame :=
  match session_df st with
  | Some df => (st, Returned df)
  | None =>
      match load read_csv strptime (disk st) with
      | Returned df => (with_df df st, Returned df)
      | Raised e => (st, Raised e)
      end
  end.

(** app.py:126-217: the success message is shown when its flag is set, and
    the flag is cleared; then the dashboard is drawn. *)
Definition display (df : DataFrame) (st : state) : state * outcome screen :=
  if Form.show_success_message (form st)
  then (with_form (set_show_success_message false (form st)) st,
        Returned {| success_shown := true; view := dashboard df |})
  else (st, Returned {| success_shown := false; view := dashboard df |}).

(** app.py:109-124: the row is appended to the session's ledger, the whole
    ledger is written, the flag is set and the script is run again. *)
Definition submit (df : DataFrame) (st : state) : state * outcome screen :=
  let df' := append df (new_data (date_value st) (form st)) in
  let st' := with_df df' st in
  match to_csv df' with
  | Raised e => (st', Raised e)
  | Returned bytes =>
      display df'
        (with_form (set_show_success_message true (form st'))
           (with_disk bytes st'))
  end.

(** One run of the script. *)
Definition run (ev : event) (st : state) : state * outcome screen :=
  match ensure_loaded (updated ev st) with
  | (st2, Raised e) => (st2, Raised e)
  | (st2, Returned df) =>
      match ev with
      | ClickSubmit =>
          if delivered ev st then submit df st2 else display df st2
      | _ => display df st2
      end
  end.

(** The session after a sequence of interactions; a run that raised leaves
    the session state it had reached. *)
Fixpoint run_all (events : list event) (st : state) : state :=
  match events with
  | [] => st
  | ev :: rest => run_all rest (run ev st).1
  end.
End Script.

(** The session when the page is first opened. *)
Definition fresh (today : calendar) (file : option string) : state :=
  {| session_df := None; form := Form.initial;
     date_value := today; disk := file |}.

(** The form holds a type of the type selectbox, a category offered for
    that type, and an amount the number input accepts. *)
Definition form_ok (f : Form.session_state) : Prop :=
  Form.trans_type f ∈ Form.type_options /\
  Form.category f ∈ Form.category_options (Form.trans_type f) /\
  0 <= Form.amount f.

(** A row as the form can produce it. *)
Definition entered (r : Transaction) : Prop :=
  exists d t c text,
    date r = Day d /\
    trans_type r = Some t /\ t ∈ Form.type_options /\
    category r = Some c /\ c ∈ Form.category_options t /\
    description r = Some text /\ text <> "" /\
    0 < amount r.

(** The file holds what [to_csv] writes for the session's ledger. *)
Definition in_sync (to_csv : DataFrame -> outcome string) (st : state) : Prop :=
  exists df bytes,
    session_df st = Some df /\ disk st = Some bytes /\
    to_csv df = Returned bytes.

End App.

(** ** Further notions used in statements *)



(** A row of one of the two types of the form. *)
Definition typed_row (r : Transaction) : Prop :=
  trans_type r = Some INCOME \/ trans_type r = Some EXPENSE.

(** *** Stand-ins for the library calls, used in examples *)

Definition sample_day : calendar := {| year := 2024; month := 1; day := 5 |}.

(** A date parser that knows one text. *)
Definition sample_strptime (text : string) : option calendar :=
  if String.eqb text "2024-01-05" then Some sample_day else None.

Definition sample_rows : list raw_row :=
  [ {| raw_date := Some "2024-01-05"; raw_type := Some INCOME;
       raw_category := Some "เงินรายวัน"; raw_description := Some "ค่าแรง";
       raw_amount := 30000 |};
    {| raw_date := Some "5 มกราคม"; raw_type := Some EXPENSE;
       raw_category := Some "ค่าอาหาร"; raw_description := Some "ข้าว";
       raw_amount := 4500 |} ].

(** A reader for which the file decodes under TIS-620 only. *)
Definition legacy_read_csv (enc : encoding) (bytes : string)
  : outcome (list raw_row) :=
  match enc with
  | Utf8Sig => Raised UnicodeDecodeError
  | Tis620 => Returned sample_rows
  end.

(** A reader for which the file decodes under utf-8-sig. *)
Definition plain_read_csv (enc : encoding) (bytes : string)
  : outcome (list raw_row) :=
  Returned sample_rows.

(** A writer that always succeeds, and one that always fails. *)
Definition sample_to_csv (df : DataFrame) : outcome string :=
  Returned (String.concat "," (default "" ∘ description <$> df)).


(** A form ready to submit: an expense of 45.00 baht for lunch. *)
Definition lunch_form : Form.session_state :=
  {| Form.trans_type := EXPENSE; Form.category := "ค่าอาหาร";
     Form.description := "ข้าวกลางวัน"; Form.amount := 4500;
     Form.show_success_message := false |}.

(** A session that holds a one-row ledger, with the lunch form filled in. *)
Definition ready_session : App.state :=
  {| App.session_df :=
       Some [ {| date := Day {| year := 2024; month := 1; day := 5 |};
                 trans_type := Some INCOME; category := Some "เงินรายวัน";
                 description := Some "x"; amount := 30000 |} ];
     App.form := lunch_form;
     App.date_value := sample_day;
     App.disk := Some "x" |}.

(** Rows used in examples. *)
Definition sample_row (t : string) (c : cell) (a : Z) : Transaction :=
  {| date := Day {| year := 2024; month := 1; day := 5 |};
     trans_type := Some t; category := c;
     description := Some "x"; amount := a |}.

(** * Theorems *)

(** ** Aggregator *)

Lemma fold_left_add_from (values : list Z) (a : Z) :
  fold_left Z.add values a = a + fold_left Z.add values 0.
Proof.
  revert a. induction values as [|v values IH]; intros a; simpl.
  - lia.
  - rewrite (IH (a + v)), (IH (0 + v)). lia.
Qed.

Lemma series_sum_cons (v : Z) (values : list Z) :
  series_sum (v :: values) = v + series_sum values.
Proof. unfold series_sum. simpl. rewrite fold_left_add_from. lia. Qed.

Lemma series_sum_amounts (records : DataFrame) :
  series_sum (map amount records) = amounts_sum records.
Proof.
  induction records as [|r records IH]; [done|].
  cbn [map amounts_sum]. rewrite series_sum_cons. by rewrite IH.
Qed.

Lemma total_amounts_sum (records : DataFrame) :
  total records = amounts_sum records.
Proof.
  destruct records as [|r records]; [done|].
  unfold total. apply series_sum_amounts.
Qed.

(** C3: [total] of a record set is the sum of its amounts and is 0 on the
    empty set; [balance] is income total minus expense total, and it is
    negative on some ledger. *)
Theorem total_and_balance :
  (forall records : DataFrame, total records = amounts_sum records) /\
  total [] = 0 /\
  (forall df : DataFrame, balance df = total_income df - total_expense df) /\
  (forall df : DataFrame,
     total_income df = amounts_sum (income_df df) /\
     total_expense df = amounts_sum (expense_df df)) /\
  (exists df : DataFrame, balance df < 0).
Proof.
  split; [apply total_amounts_sum|].
  split; [done|].
  split; [done|].
  split; [intros df; split; apply total_amounts_sum|].
  exists [sample_row EXPENSE (Some "ค่าอาหาร") 1550]. by vm_compute.
Qed.

Lemma cell_eqb_true (c : cell) (label : string) :
  cell_eqb c label = true <-> c = Some label.
Proof.
  destruct c as [t|]; simpl; [|done].
  rewrite String.eqb_eq. naive_solver.
Qed.

(** Boolean indexing with a type mask keeps exactly the rows of that type,
    in ledger order. *)
Lemma select_type_mask (label : string) (df : DataFrame) :
  select (type_mask label df) df =
  filter (fun r => trans_type r = Some label) df.
Proof.
  induction df as [|r df IH]; [done|].
  cbn [type_mask map select]. fold (type_mask label df).
  rewrite filter_cons, IH.
  destruct (cell_eqb (trans_type r) label) eqn:E; case_decide as Hd; try done.
  - by apply cell_eqb_true in E.
  - apply cell_eqb_true in Hd. congruence.
Qed.

Lemma income_expense_distinct : INCOME <> EXPENSE.
Proof. by vm_compute. Qed.

Lemma three_way_split (df : DataFrame) :
  df ≡ₚ income_df df ++ expense_df df ++ filter other_typed df.
Proof.
  unfold income_df, expense_df. rewrite !select_type_mask.
  induction df as [|r df IH]; [done|].
  rewrite !filter_cons.
  destruct (decide (trans_type r = Some INCOME)) as [Hi|Hi].
  - rewrite decide_False by (rewrite Hi; intros [=H]; by apply income_expense_distinct).
    rewrite decide_False by (intros [? _]; done).
    simpl. by f_equiv.
  - destruct (decide (trans_type r = Some EXPENSE)) as [He|He].
    + rewrite decide_False by (intros [_ ?]; done).
      rewrite <- app_comm_cons, <- Permutation_middle. by f_equiv.
    + rewrite decide_True by done.
      rewrite app_assoc, <- Permutation_middle, <- app_assoc. by f_equiv.
Qed.

Lemma filter_drop_row (label : string) (before after : DataFrame) (r : Transaction) :
  trans_type r <> Some label ->
  filter (fun x => trans_type x = Some label) (before ++ r :: after) =
  filter (fun x => trans_type x = Some label) (before ++ after).
Proof.
  intros Hr. rewrite !filter_app, filter_cons. by rewrite decide_False.
Qed.

(** C4: the two tables are the rows of type Income and of type Expense, each
    in ledger order, every row lands in at most one of them, and a row of
    neither type is in neither table and changes neither total. *)
Theorem split_by_type_partition (df : DataFrame) :
  income_df df = filter (fun r => trans_type r = Some INCOME) df /\
  expense_df df = filter (fun r => trans_type r = Some EXPENSE) df /\
  sublist (income_df df) df /\ sublist (expense_df df) df /\
  (forall r, (r ∈ income_df df) -> (r ∉ expense_df df)) /\
  df ≡ₚ income_df df ++ expense_df df ++ filter other_typed df /\
  (forall before r after,
     df = before ++ r :: after ->
     trans_type r <> Some INCOME -> trans_type r <> Some EXPENSE ->
     (r ∉ income_df df) /\ (r ∉ expense_df df) /\
     income_df df = income_df (before ++ after) /\
     expense_df df = expense_df (before ++ after) /\
     total_income df = total_income (before ++ after) /\
     total_expense df = total_expense (before ++ after)).
Proof.
  split; [apply select_type_mask|].
  split; [apply select_type_mask|].
  split; [unfold income_df; rewrite select_type_mask; apply sublist_filter|].
  split; [unfold expense_df; rewrite select_type_mask; apply sublist_filter|].
  split.
  { intros r. unfold income_df, expense_df. rewrite !select_type_mask.
    rewrite !list_elem_of_filter. intros [Hi _] [He _].
    apply income_expense_distinct. congruence. }
  split; [apply three_way_split|].
  intros before r after -> Hi He.
  unfold total_income, total_expense, income_df, expense_df.
  rewrite !select_type_mask, !list_elem_of_filter.
  rewrite !(filter_drop_row _ before after r) by done.
  repeat split; try done; by intros [? _].
Qed.

(** A ledger with a row of a third type between an income and an expense
    row: the row is dropped from both tables and both totals. *)
Lemma split_by_type_partition_witness :
  let odd := sample_row "โอน" (Some "อื่นๆ") 700 in
  let df := [sample_row INCOME (Some "เงินรายวัน") 30000; odd;
             sample_row EXPENSE (Some "ค่าอาหาร") 4500] in
  trans_type odd <> Some INCOME /\ trans_type odd <> Some EXPENSE /\
  (odd ∉ income_df df) /\ (odd ∉ expense_df df) /\
  total_income df = 30000 /\ total_expense df = 4500.
Proof.
  intros odd df.
  assert (Hi : trans_type odd <> Some INCOME) by (by vm_compute).
  assert (He : trans_type odd <> Some EXPENSE) by (by vm_compute).
  destruct (split_by_type_partition df) as (_ & _ & _ & _ & _ & _ & H).
  destruct (H [sample_row INCOME (Some "เงินรายวัน") 30000] odd
              [sample_row EXPENSE (Some "ค่าอาหาร") 4500] eq_refl Hi He)
    as (H1 & H2 & _ & _ & H5 & H6).
  split; [exact Hi|]. split; [exact He|].
  split; [exact H1|]. split; [exact H2|].
  split; [rewrite H5|rewrite H6]; reflexivity.
Defined.

(** ** Group by category *)

Lemma compare_refl (k : string) : String.compare k k = Eq.
Proof.
  induction k as [|a k IH]; simpl; [done|].
  unfold Ascii.compare. by rewrite N.compare_refl.
Qed.

Lemma key_lt_irrefl (k : string) : ~ key_lt k k.
Proof. unfold key_lt. by rewrite compare_refl. Qed.

Lemma key_lt_le (k k' : string) : key_lt k k' -> String.le k k'.
Proof. unfold key_lt, String.le, String.leb. by intros ->. Qed.

Lemma key_lt_trans (a b c : string) : key_lt a b -> key_lt b c -> key_lt a c.
Proof.
  intros Hab Hbc.
  assert (Hac : String.le a c).
  { transitivity b; by apply key_lt_le. }
  unfold key_lt. destruct (String.compare a c) eqn:E.
  - apply String.compare_eq_iff in E as ->.
    assert (b = c) as ->.
    { apply (anti_symm String.le); by apply key_lt_le. }
    by apply key_lt_irrefl in Hbc.
  - done.
  - unfold String.le, String.leb in Hac. by rewrite E in Hac.
Qed.

Lemma compare_gt_lt (k k' : string) : String.compare k k' = Gt -> key_lt k' k.
Proof.
  intros H. unfold key_lt. rewrite String.compare_antisym, H. done.
Qed.

Lemma add_to_group_keys (k : string) (v : Z) (s : Series) (q : string) :
  q ∈ (add_to_group k v s).*1 <-> q = k \/ q ∈ s.*1.
Proof.
  induction s as [|[k1 v1] rest IH]; simpl.
  - set_solver.
  - destruct (String.compare k k1) eqn:E; simpl.
    + apply String.compare_eq_iff in E as ->. set_solver.
    + set_solver.
    + set_solver.
Qed.

Lemma add_to_group_sorted (k : string) (v : Z) (s : Series) :
  sorted_index s -> sorted_index (add_to_group k v s).
Proof.
  unfold sorted_index.
  induction s as [|[k1 v1] rest IH]; simpl; intros Hs.
  - repeat constructor.
  - apply StronglySorted_cons in Hs as [Hall Hs].
    destruct (String.compare k k1) eqn:E; simpl.
    + apply StronglySorted_cons. done.
    + apply StronglySorted_cons. split.
      * constructor; [done|].
        eapply Forall_impl; [exact Hall|]. intros q Hq.
        by apply (key_lt_trans k k1 q).
      * apply StronglySorted_cons. done.
    + apply StronglySorted_cons. split; [|by apply IH].
      apply Forall_forall. intros q Hq.
      apply add_to_group_keys in Hq as [->|Hq].
      * by apply compare_gt_lt.
      * rewrite Forall_forall in Hall. by apply Hall.
Qed.

Lemma sorted_index_head_fresh (k : string) (v : Z) (rest : Series) :
  sorted_index ((k, v) :: rest) -> forall q, key_lt q k \/ q = k -> q ∉ rest.*1.
Proof.
  unfold sorted_index. simpl. intros [Hall _]%StronglySorted_cons q Hq Hin.
  rewrite Forall_forall in Hall. specialize (Hall q Hin).
  destruct Hq as [Hq| ->].
  - by apply (key_lt_irrefl q), (key_lt_trans q k q).
  - by apply key_lt_irrefl in Hall.
Qed.

Lemma sorted_index_NoDup (s : Series) : sorted_index s -> NoDup (s.*1).
Proof.
  unfold sorted_index. induction (s.*1) as [|k ks IH]; intros Hs.
  - constructor.
  - apply StronglySorted_cons in Hs as [Hall Hs].
    constructor; [|by apply IH].
    intros Hin. rewrite Forall_forall in Hall.
    by apply (key_lt_irrefl k), Hall.
Qed.

Lemma elem_of_keys (s : Series) (k : string) :
  k ∈ s.*1 <-> exists v, (k, v) ∈ s.
Proof.
  rewrite list_elem_of_fmap. split.
  - intros ([k' v] & -> & Hin). by exists v.
  - intros [v Hin]. by exists (k, v).
Qed.

(** Entries of the groups after one more amount has been added to group [k]. *)
Lemma add_to_group_elem (k : string) (v : Z) (s : Series) (q : string) (w : Z) :
  sorted_index s ->
  (q, w) ∈ add_to_group k v s <->
    (q <> k /\ (q, w) ∈ s) \/
    (q = k /\
     ((exists w0, (k, w0) ∈ s /\ w = w0 + v) \/ ((k ∉ s.*1) /\ w = v))).
Proof.
  induction s as [|[k1 v1] rest IH]; intros Hs.
  - simpl. set_solver.
  - pose proof (sorted_index_head_fresh _ _ _ Hs) as Hfresh.
    assert (Hrest : sorted_index rest).
    { unfold sorted_index in *. simpl in Hs. by apply StronglySorted_cons in Hs as [_ ?]. }
    specialize (IH Hrest). cbn [add_to_group].
    destruct (String.compare k k1) eqn:E.
    + apply String.compare_eq_iff in E as <-.
      assert (Hk : forall w0, (k, w0) ∉ rest).
      { intros w0 Hin. apply (Hfresh k); [by right|]. apply elem_of_keys. by exists w0. }
      cbn [fmap list_fmap fst]. rewrite not_elem_of_cons. repeat setoid_rewrite elem_of_cons.
      destruct (decide (q = k)) as [->|Hq]; naive_solver.
    + assert (Hne : k <> k1).
      { intros ->. by apply key_lt_irrefl in E. }
      assert (Hk : forall w0, (k, w0) ∉ rest).
      { intros w0 Hin. apply (Hfresh k); [by left|]. apply elem_of_keys. by exists w0. }
      assert (Hk' : k ∉ ((k1, v1) :: rest).*1).
      { intros [w0 [[= ->]|?]%elem_of_cons]%elem_of_keys; [done|]. by apply (Hk w0). }
      repeat setoid_rewrite elem_of_cons.
      destruct (decide (q = k)) as [->|Hq]; naive_solver.
    + assert (Hne : k <> k1).
      { intros ->. by rewrite compare_refl in E. }
      rewrite elem_of_cons, IH. cbn [fmap list_fmap fst].
      rewrite not_elem_of_cons. repeat setoid_rewrite elem_of_cons.
      destruct (decide (q = k)) as [->|Hq]; naive_solver.
Qed.

Lemma amounts_sum_app (a b : DataFrame) :
  amounts_sum (a ++ b) = amounts_sum a + amounts_sum b.
Proof. induction a as [|r a IH]; simpl; lia. Qed.

Lemma in_category_snoc (k : string) (records : DataFrame) (r : Transaction) :
  in_category k (records ++ [r]) =
  in_category k records ++ (if decide (category r = Some k) then [r] else []).
Proof. unfold in_category. by rewrite filter_app. Qed.

Lemma grouped_nil : grouped [] [].
Proof.
  split; [constructor|]. intros k v. split.
  - by intros ?%elem_of_nil.
  - by intros [(r & ?%elem_of_nil & _) _].
Qed.

Lemma has_category_iff (k : string) (records : DataFrame) :
  (exists r, r ∈ records /\ category r = Some k) <-> in_category k records <> [].
Proof.
  unfold in_category. split.
  - intros (r & Hin & Hc) Hnil.
    assert (Hr : r ∈ filter (fun r => category r = Some k) records).
    { by apply list_elem_of_filter. }
    rewrite Hnil in Hr. by apply elem_of_nil in Hr.
  - destruct (filter _ records) as [|r l] eqn:Hl; [done|]. intros _.
    assert (Hr : r ∈ filter (fun r => category r = Some k) records).
    { rewrite Hl. by left. }
    apply list_elem_of_filter in Hr as [? ?]. by exists r.
Qed.

Lemma grouped_add_row (records : DataFrame) (s : Series) (r : Transaction) :
  grouped records s -> grouped (records ++ [r]) (add_row s r).
Proof.
  intros [Hsorted Hs]. unfold add_row.
  destruct (category r) as [k0|] eqn:Hcat.
  - split; [by apply add_to_group_sorted|].
    intros k v. rewrite add_to_group_elem by done.
    rewrite in_category_snoc, amounts_sum_app, Hcat.
    setoid_rewrite elem_of_app. setoid_rewrite list_elem_of_singleton.
    rewrite elem_of_keys. setoid_rewrite Hs.
    destruct (decide (k = k0)) as [->|Hne].
    + rewrite decide_True by done. simpl.
      pose proof (has_category_iff k0 records) as Hhas.
      destruct (in_category k0 records) as [|r' l] eqn:Hl.
      * assert (Hno : ~ exists r', r' ∈ records /\ category r' = Some k0).
        { rewrite Hhas. by intros []. }
        split.
        -- intros [[? _]|[_ [(w0 & [Hex _] & _)|[_ ->]]]]; [done..|].
           split; [exists r; eauto|simpl; lia].
        -- intros [_ ->]. right. split; [done|]. right.
           split; [|simpl; lia]. by intros (w0 & Hex & _).
      * assert (Hyes : exists r', r' ∈ records /\ category r' = Some k0).
        { by apply Hhas. }
        split.
        -- intros [[? _]|[_ [(w0 & [_ ->] & ->)|[Hnew _]]]]; [done| |].
           ++ split; [exists r; eauto|lia].
           ++ exfalso. apply Hnew. eauto.
        -- intros [_ ->]. right. split; [done|]. left.
           exists (amounts_sum (r' :: l)). split; [done|lia].
    + rewrite decide_False by congruence. simpl. rewrite Z.add_0_r.
      split.
      * intros [[_ [(r' & Hin & Hc) ->]]|[? _]]; [|done]. naive_solver.
      * intros [(r' & [Hin| ->] & Hc) ->]; [|congruence]. left. naive_solver.
  - split; [done|]. intros k v. rewrite Hs, in_category_snoc, Hcat.
    rewrite decide_False by done. rewrite app_nil_r.
    setoid_rewrite elem_of_app. setoid_rewrite list_elem_of_singleton.
    naive_solver.
Qed.

Lemma fold_add_row_grouped (todo seen : DataFrame) (acc : Series) :
  grouped seen acc -> grouped (seen ++ todo) (fold_left add_row todo acc).
Proof.
  revert seen acc. induction todo as [|r todo IH]; intros seen acc Hacc.
  - by rewrite app_nil_r.
  - simpl.
    rewrite (assoc_L (++) seen [r] todo
             : seen ++ r :: todo = (seen ++ [r]) ++ todo).
    apply IH. by apply grouped_add_row.
Qed.

Lemma groupby_sum_grouped (records : DataFrame) :
  grouped records (groupby_sum records).
Proof. apply (fold_add_row_grouped records [] []), grouped_nil. Qed.

Lemma get_elem (s : Series) (k : string) (v default : Z) :
  NoDup (s.*1) -> (k, v) ∈ s -> get s k default = v.
Proof.
  induction s as [|[k1 v1] rest IH]; simpl; intros Hnd Hin.
  - by apply elem_of_nil in Hin.
  - apply NoDup_cons in Hnd as [Hfresh Hnd].
    apply elem_of_cons in Hin as [[= -> ->]|Hin].
    + by rewrite String.eqb_refl.
    + destruct (String.eqb_spec k1 k) as [->|Hne]; [|by apply IH].
      exfalso. apply Hfresh, elem_of_keys. by exists v.
Qed.

Lemma get_absent (s : Series) (k : string) (default : Z) :
  (k ∉ s.*1) -> get s k default = default.
Proof.
  induction s as [|[k1 v1] rest IH]; simpl; intros Hk; [done|].
  apply not_elem_of_cons in Hk as [Hne Hk].
  destruct (String.eqb_spec k1 k) as [->|_]; [done|by apply IH].
Qed.

(** C2: the groupby sum has a key exactly for the categories some record
    has, each key once, and the value at a key is the sum of the amounts of
    exactly the records of that category; a category without records has
    no key. *)
Theorem sum_by_category_groups (records : DataFrame) :
  NoDup ((groupby_sum records).*1) /\
  (forall k, k ∈ (groupby_sum records).*1 <->
             exists r, r ∈ records /\ category r = Some k) /\
  (forall k v, (k, v) ∈ groupby_sum records ->
               v = amounts_sum (in_category k records)) /\
  (forall k, in_category k records = [] -> k ∉ (groupby_sum records).*1).
Proof.
  destruct (groupby_sum_grouped records) as [Hsorted Hs].
  split; [by apply sorted_index_NoDup|].
  split.
  { intros k. rewrite elem_of_keys. setoid_rewrite Hs. naive_solver. }
  split.
  { intros k v Hin. by apply Hs in Hin as [_ ->]. }
  intros k Hnil [v Hin]%elem_of_keys.
  apply Hs in Hin as [Hex _]. apply has_category_iff in Hex. done.
Qed.

(** Two food rows, one travel row and a row without category. *)
Lemma sum_by_category_groups_witness :
  let records := [sample_row EXPENSE (Some "ค่าอาหาร") 10000;
                  sample_row EXPENSE (Some "ค่าเดินทาง") 5000;
                  sample_row EXPENSE None 1000;
                  sample_row EXPENSE (Some "ค่าอาหาร") 2550] in
  ("ค่าอาหาร", 12550) ∈ groupby_sum records /\
  12550 = amounts_sum (in_category "ค่าอาหาร" records) /\
  in_category "เงินรายวัน" records = [] /\
  ("เงินรายวัน" ∉ (groupby_sum records).*1).
Proof.
  intros records.
  destruct (sum_by_category_groups records) as (_ & _ & Hv & Hn).
  assert (Hin : ("ค่าอาหาร", 12550) ∈ groupby_sum records).
  { apply (bool_decide_unpack _). by vm_compute. }
  split; [exact Hin|].
  split; [exact (Hv _ _ Hin)|].
  split; [reflexivity|].
  apply Hn. reflexivity.
Defined.

(** ** Chart data builder *)

Lemma unique_from_seen (seen seen' labels : list string) :
  (forall x, x ∈ seen <-> x ∈ seen') ->
  unique_from seen labels = unique_from seen' labels.
Proof.
  revert seen seen'. induction labels as [|x rest IH]; intros seen seen' Hsame; [done|].
  simpl. rewrite (bool_decide_ext _ _ (Hsame x)).
  case_bool_decide; [by apply IH|].
  f_equal. apply IH. intros y. rewrite !elem_of_cons. by rewrite Hsame.
Qed.

Lemma unique_from_app (seen a b : list string) :
  unique_from seen (a ++ b) = unique_from seen a ++ unique_from (a ++ seen) b.
Proof.
  revert seen. induction a as [|x a IH]; intros seen; [done|].
  simpl. case_bool_decide as Hx.
  - rewrite IH. f_equal. apply unique_from_seen.
    intros y. rewrite elem_of_cons, !elem_of_app. naive_solver.
  - rewrite IH. simpl. do 2 f_equal. apply unique_from_seen.
    intros y. rewrite elem_of_cons, !elem_of_app, elem_of_cons. naive_solver.
Qed.

Lemma filter_ext_elem {A : Type} (P Q : A -> Prop)
    `{!forall x, Decision (P x)} `{!forall x, Decision (Q x)} (l : list A) :
  (forall x, x ∈ l -> P x <-> Q x) -> filter P l = filter Q l.
Proof.
  induction l as [|x l IH]; intros Hext; [done|].
  rewrite !filter_cons.
  rewrite IH by (intros y Hy; apply Hext; by right).
  destruct (decide (P x)) as [HP|HP], (decide (Q x)) as [HQ|HQ]; try done.
  - exfalso. apply HQ, Hext; [by left|done].
  - exfalso. apply HP, Hext; [by left|done].
Qed.

Lemma filter_all {A : Type} (P : A -> Prop) `{!forall x, Decision (P x)}
    (l : list A) :
  Forall P l -> filter P l = l.
Proof.
  induction 1 as [|x l HP _ IH]; [done|].
  by rewrite filter_cons_True, IH.
Qed.

Lemma unique_from_NoDup (seen labels : list string) :
  NoDup labels ->
  unique_from seen labels = filter (fun x => x ∉ seen) labels.
Proof.
  revert seen. induction labels as [|x rest IH]; intros seen Hnd; [done|].
  apply NoDup_cons in Hnd as [Hx Hnd].
  simpl. rewrite filter_cons. case_bool_decide as Hseen.
  - rewrite decide_False by (intros ?; done). by apply IH.
  - rewrite decide_True by done. f_equal. rewrite IH by done.
    apply filter_ext_elem. intros y Hy. rewrite not_elem_of_cons.
    split; [by intros [_ ?]|]. intros ?. split; [|done]. by intros ->.
Qed.

(** The axis: the income labels, then the expense labels not yet on it. *)
Lemma all_categories_order (income expense : Series) :
  NoDup (income.*1) -> NoDup (expense.*1) ->
  all_categories income expense =
  income.*1 ++ filter (fun c => c ∉ income.*1) (expense.*1).
Proof.
  intros Hi He. unfold all_categories, unique.
  rewrite fmap_app, unique_from_app, app_nil_r, !unique_from_NoDup by done.
  f_equal. apply filter_all, Forall_forall. intros x _. apply not_elem_of_nil.
Qed.

(** C1: for two per-category mappings, the category axis is the union of
    their keys, each key once, in order of first appearance (income keys,
    then the expense keys not yet met), and at every position of the axis
    the income value is the income mapping's value of that category, or 0
    when it has none, and likewise the expense value. *)
Theorem build_series_axis_and_values (income expense : Series)
    (cats : list string) (iv ev : list Z) :
  NoDup (income.*1) -> NoDup (expense.*1) ->
  build_series income expense = (cats, iv, ev) ->
  cats = income.*1 ++ filter (fun c => c ∉ income.*1) (expense.*1) /\
  NoDup cats /\
  (forall c, c ∈ cats <-> c ∈ income.*1 \/ c ∈ expense.*1) /\
  (forall i c, cats !! i = Some c ->
     iv !! i = Some (get income c 0) /\
     ev !! i = Some (get expense c 0) /\
     (forall v, (c, v) ∈ income -> iv !! i = Some v) /\
     ((c ∉ income.*1) -> iv !! i = Some 0) /\
     (forall v, (c, v) ∈ expense -> ev !! i = Some v) /\
     ((c ∉ expense.*1) -> ev !! i = Some 0)).
Proof.
  intros Hi He [= <- <- <-].
  rewrite all_categories_order by done.
  set (axis := income.*1 ++ filter (fun c => c ∉ income.*1) (expense.*1)).
  split; [done|]. split.
  { apply NoDup_app. split; [done|]. split.
    - intros c Hc [Hnot _]%list_elem_of_filter. done.
    - by apply NoDup_filter. }
  split.
  { intros c. unfold axis. rewrite elem_of_app, list_elem_of_filter.
    destruct (decide (c ∈ income.*1)); naive_solver. }
  intros i c Hic.
  assert (Hiv : ((fun cat => get income cat 0) <$> axis) !! i = Some (get income c 0)).
  { by rewrite list_lookup_fmap, Hic. }
  assert (Hev : ((fun cat => get expense cat 0) <$> axis) !! i = Some (get expense c 0)).
  { by rewrite list_lookup_fmap, Hic. }
  rewrite Hiv, Hev. repeat split.
  - intros v Hv. by rewrite (get_elem income c v 0).
  - intros Hc. by rewrite get_absent.
  - intros v Hv. by rewrite (get_elem expense c v 0).
  - intros Hc. by rewrite get_absent.
Qed.

(** Income only in category A, expense only in category B. *)
Lemma build_series_axis_and_values_witness :
  let income := [("เงินรายวัน", 10000)] in
  let expense := [("ค่าอาหาร", 5000)] in
  NoDup (income.*1) /\ NoDup (expense.*1) /\
  build_series income expense =
    (["เงินรายวัน"; "ค่าอาหาร"], [10000; 0], [0; 5000]) /\
  ([10000; 0] : list Z) !! 1%nat = Some 0 /\
  ([0; 5000] : list Z) !! 1%nat = Some 5000.
Proof.
  intros income expense.
  assert (Hi : NoDup (income.*1)) by (apply (bool_decide_unpack _); by vm_compute).
  assert (He : NoDup (expense.*1)) by (apply (bool_decide_unpack _); by vm_compute).
  assert (Hs : build_series income expense =
               (["เงินรายวัน"; "ค่าอาหาร"], [10000; 0], [0; 5000])) by reflexivity.
  destruct (build_series_axis_and_values income expense _ _ _ Hi He Hs)
    as (_ & _ & _ & Hval).
  destruct (Hval 1%nat "ค่าอาหาร" eq_refl) as (_ & _ & _ & Hzero & Hexp & _).
  split; [exact Hi|]. split; [exact He|]. split; [exact Hs|]. split.
  - apply Hzero. apply (bool_decide_unpack _). by vm_compute.
  - apply Hexp. apply (bool_decide_unpack _). by vm_compute.
Defined.

(** C10: the two value lists have the length of the category axis. *)
Theorem build_series_lengths (income expense : Series) :
  length (build_series income expense).1.2 =
    length (build_series income expense).1.1 /\
  length (build_series income expense).2 =
    length (build_series income expense).1.1.
Proof. unfold build_series. simpl. by rewrite !length_fmap. Qed.

Lemma build_series_empty : build_series [] [] = ([], [], []).
Proof. reflexivity. Qed.

(** The guard of the chart section looks at the types of the rows. *)
Lemma chart_section_notice (df : DataFrame) :
  chart_section df = InsufficientData <->
  forall r, r ∈ df -> other_typed r.
Proof.
  unfold chart_section, has_type, other_typed.
  destruct (existsb _ df || existsb _ df) eqn:E.
  - split; [done|]. intros Hall. exfalso.
    apply orb_true_iff in E as [E|E];
      apply existsb_exists in E as (r & Hin & Hr);
      apply cell_eqb_true in Hr; apply list_elem_of_In in Hin;
      destruct (Hall r Hin); done.
  - split; [|done]. intros _ r Hin.
    apply orb_false_iff in E as [E1 E2]. apply list_elem_of_In in Hin.
    split; intros Hr%cell_eqb_true.
    + assert (existsb (fun r => cell_eqb (trans_type r) INCOME) df = true); [|congruence].
      apply existsb_exists. eauto.
    + assert (existsb (fun r => cell_eqb (trans_type r) EXPENSE) df = true); [|congruence].
      apply existsb_exists. eauto.
Qed.

Lemma groupby_sum_no_rows : groupby_sum [] = [].
Proof. reflexivity. Qed.

Lemma filter_none_typed (label : string) (df : DataFrame) :
  (forall r, r ∈ df -> trans_type r <> Some label) ->
  select (type_mask label df) df = [].
Proof.
  intros Hall. rewrite select_type_mask.
  induction df as [|r df IH]; [done|].
  rewrite filter_cons_False by (apply Hall; by left).
  apply IH. intros r' Hin. apply Hall. by right.
Qed.

(** C9 (as amended): [build_series] of two empty mappings is three empty
    lists; for an empty ledger nothing is displayed; and when no row of the
    ledger has type Income or Expense, both per-category mappings are empty
    and the chart section is the insufficient-data notice, which is what a
    non-empty such ledger displays. *)
Theorem chart_notice_without_typed_rows (df : DataFrame) :
  (forall r, r ∈ df -> other_typed r) ->
  build_series [] [] = ([], [], []) /\
  dashboard [] = None /\
  income_by_category df = [] /\
  expense_by_category df = [] /\
  chart_section df = InsufficientData /\
  (df <> [] -> chart <$> dashboard df = Some InsufficientData).
Proof.
  intros Hall.
  assert (Hnotice : chart_section df = InsufficientData).
  { by apply chart_section_notice. }
  split; [done|]. split; [done|].
  unfold income_by_category, expense_by_category, income_df, expense_df.
  rewrite !filter_none_typed.
  - repeat split; try done. intros Hne. destruct df; [done|].
    simpl. by rewrite Hnotice.
  - intros r Hin. by destruct (Hall r Hin).
  - intros r Hin. by destruct (Hall r Hin).
Qed.

(** A ledger whose only row is of a third type. *)
Lemma chart_notice_without_typed_rows_witness :
  let df := [sample_row "โอน" (Some "อื่นๆ") 700] in
  (forall r, r ∈ df -> other_typed r) /\
  income_by_category df = [] /\
  expense_by_category df = [] /\
  chart <$> dashboard df = Some InsufficientData.
Proof.
  intros df.
  assert (Hall : forall r, r ∈ df -> other_typed r).
  { intros r ->%list_elem_of_singleton. by split. }
  destruct (chart_notice_without_typed_rows df Hall)
    as (_ & _ & Hi & He & _ & Hd).
  split; [exact Hall|]. split; [exact Hi|]. split; [exact He|].
  by apply Hd.
Defined.

(** C9 (as stated) fails on two ledgers whose per-category mappings are
    both empty.  For the empty ledger nothing is displayed, the notice
    included.  An income row whose category cell is NaN passes the guard of
    the chart section, and the chart is drawn over an empty axis. *)
Lemma empty_mappings_without_notice :
  (income_by_category [] = [] /\ expense_by_category [] = [] /\
   dashboard [] = None) /\
  let df := [sample_row INCOME None 10000] in
  income_by_category df = [] /\ expense_by_category df = [] /\
  chart_section df = Chart ([], [], []) /\
  chart <$> dashboard df = Some (Chart ([], [], [])) /\
  chart_section df <> InsufficientData.
Proof. by vm_compute. Qed.

(** ** Record store *)

Section StoreFacts.
Variable read_csv : encoding -> string -> outcome (list raw_row).
Variable strptime : string -> option calendar.

Lemma convert_date_coerce (c : cell) :
  convert_date strptime ErrorsCoerce c = Returned (coerced strptime c).
Proof.
  destruct c as [text|]; simpl; [|done]. by destruct (strptime text).
Qed.

Lemma to_datetime_coerce (column : list cell) :
  to_datetime strptime ErrorsCoerce column =
  Returned (coerced strptime <$> column).
Proof.
  unfold to_datetime. induction column as [|c column IH]; [done|].
  cbn [mapM fmap list_fmap]. rewrite convert_date_coerce. simpl.
  fold (mapM (M := outcome) (convert_date strptime ErrorsCoerce)).
  by rewrite IH.
Qed.

(** Under errors='raise' one bad date text aborts the conversion. *)
Lemma to_datetime_raise_aborts (before after : list cell) (text : string) :
  Forall (fun c => convert_date strptime ErrorsRaise c =
                   Returned (coerced strptime c)) before ->
  strptime text = None ->
  to_datetime strptime ErrorsRaise (before ++ Some text :: after) =
  Raised OtherError.
Proof.
  unfold to_datetime. intros Hbefore Htext.
  induction Hbefore as [|c before Hc _ IH]; simpl.
  - by rewrite Htext.
  - rewrite Hc. simpl.
    fold (mapM (M := outcome) (convert_date strptime ErrorsRaise)).
    by rewrite IH.
Qed.

Lemma assign_dates_dated (rows : list raw_row) :
  assign_dates rows (coerced strptime <$> (raw_date <$> rows)) =
  dated strptime <$> rows.
Proof.
  unfold assign_dates. induction rows as [|row rows IH]; [done|].
  rewrite !fmap_cons. cbn [zip_with]. by rewrite IH.
Qed.

Lemma read_frame_returned (enc : encoding) (bytes : string) (rows : list raw_row) :
  read_csv enc bytes = Returned rows ->
  read_frame read_csv strptime enc bytes = Returned (dated strptime <$> rows).
Proof.
  intros Hread. unfold read_frame. rewrite Hread. simpl.
  rewrite to_datetime_coerce. simpl. by rewrite assign_dates_dated.
Qed.

Lemma read_frame_raised (enc : encoding) (bytes : string) (e : exn) :
  read_csv enc bytes = Raised e ->
  read_frame read_csv strptime enc bytes = Raised e.
Proof. intros Hread. unfold read_frame. by rewrite Hread. Qed.

Lemma nonempty_bytes (bytes : string) :
  bytes <> "" -> bool_decide (0 < String.length bytes)%nat = true.
Proof.
  intros Hne. apply bool_decide_eq_true. destruct bytes; [done|simpl; lia].
Qed.

(** C6: an absent file and a file of zero bytes load as the empty ledger;
    when the file fails to decode under utf-8-sig it is read again under
    TIS-620, and the result is that reading's ledger, or the empty ledger
    when that reading raises. *)
Theorem load_missing_empty_or_undecodable :
  load read_csv strptime None = Returned [] /\
  load read_csv strptime (Some "") = Returned [] /\
  (forall bytes,
     bytes <> "" ->
     read_csv Utf8Sig bytes = Raised UnicodeDecodeError ->
     (forall rows, read_csv Tis620 bytes = Returned rows ->
        load read_csv strptime (Some bytes) =
        Returned (dated strptime <$> rows)) /\
     (forall e, read_csv Tis620 bytes = Raised e ->
        load read_csv strptime (Some bytes) = Returned [])).
Proof.
  split; [done|]. split; [done|].
  intros bytes Hne Hutf8. unfold load.
  rewrite (nonempty_bytes bytes Hne), (read_frame_raised _ _ _ Hutf8).
  split.
  - intros rows Htis. cbn [try_except].
    by rewrite (read_frame_returned _ _ _ Htis).
  - intros e Htis. cbn [try_except].
    by rewrite (read_frame_raised _ _ _ Htis).
Qed.

(** C7: when the file is read (under utf-8-sig, or under TIS-620 after a
    decode failure), every row read is in the loaded ledger, in file order
    and with its other fields unchanged; a row whose date text does not
    parse carries NaT as its date. *)
Theorem load_keeps_unparseable_dates (bytes : string) (rows : list raw_row) :
  bytes <> "" ->
  read_csv Utf8Sig bytes = Returned rows \/
  (read_csv Utf8Sig bytes = Raised UnicodeDecodeError /\
   read_csv Tis620 bytes = Returned rows) ->
  exists df,
    load read_csv strptime (Some bytes) = Returned df /\
    length df = length rows /\
    forall i row, rows !! i = Some row ->
      exists t,
        df !! i = Some t /\
        trans_type t = raw_type row /\
        category t = raw_category row /\
        description t = raw_description row /\
        amount t = raw_amount row /\
        date t = coerced strptime (raw_date row) /\
        (forall text, raw_date row = Some text -> strptime text = None ->
                      date t = NaT).
Proof.
  intros Hne Hread. exists (dated strptime <$> rows).
  split.
  { unfold load. rewrite (nonempty_bytes bytes Hne).
    destruct Hread as [Hutf8|[Hutf8 Htis]].
    - by rewrite (read_frame_returned _ _ _ Hutf8).
    - rewrite (read_frame_raised _ _ _ Hutf8). cbn [try_except].
      by rewrite (read_frame_returned _ _ _ Htis). }
  split; [by rewrite length_fmap|].
  intros i row Hrow. exists (dated strptime row).
  split; [by rewrite list_lookup_fmap, Hrow|].
  repeat split; try done.
  intros text Hdate Hparse. unfold dated, coerced. cbn [with_date date].
  by rewrite Hdate, Hparse.
Qed.
End StoreFacts.

(** A file that decodes only under TIS-620: its rows are loaded. *)
Lemma load_missing_empty_or_undecodable_witness :
  "data" <> "" /\
  legacy_read_csv Utf8Sig "data" = Raised UnicodeDecodeError /\
  legacy_read_csv Tis620 "data" = Returned sample_rows /\
  load legacy_read_csv sample_strptime (Some "data") =
    Returned (dated sample_strptime <$> sample_rows).
Proof.
  assert (Hne : "data" <> "") by done.
  split; [exact Hne|]. split; [reflexivity|]. split; [reflexivity|].
  destruct (load_missing_empty_or_undecodable legacy_read_csv sample_strptime)
    as (_ & _ & H).
  destruct (H "data" Hne eq_refl) as [Hrows _].
  exact (Hrows sample_rows eq_refl).
Defined.

(** The second sample row has a date text the parser rejects: it is loaded,
    with NaT. *)
Lemma load_keeps_unparseable_dates_witness :
  "data" <> "" /\
  plain_read_csv Utf8Sig "data" = Returned sample_rows /\
  exists df,
    load plain_read_csv sample_strptime (Some "data") = Returned df /\
    length df = 2%nat /\
    exists t, df !! 1%nat = Some t /\ date t = NaT /\ amount t = 4500.
Proof.
  assert (Hne : "data" <> "") by done.
  split; [exact Hne|]. split; [reflexivity|].
  destruct (load_keeps_unparseable_dates plain_read_csv sample_strptime
              "data" sample_rows Hne (or_introl eq_refl))
    as (df & Hload & Hlen & Hrows).
  exists df. split; [exact Hload|]. split; [exact Hlen|].
  destruct (Hrows 1%nat _ eq_refl) as (t & Ht & _ & _ & _ & Ha & _ & Hnat).
  exists t. split; [exact Ht|]. split; [|exact Ha].
  by apply (Hnat "5 มกราคม").
Defined.

(** [N] appends leave the rows in entry order after the rows already there. *)
Lemma append_all (df entries : DataFrame) :
  fold_left append entries df = df ++ entries /\
  length (fold_left append entries df) = (length df + length entries)%nat.
Proof.
  assert (H : fold_left append entries df = df ++ entries).
  { revert df. induction entries as [|t entries IH]; intros df; simpl.
    - by rewrite app_nil_r.
    - rewrite IH. unfold append. by rewrite <- app_assoc. }
  split; [done|]. by rewrite H, length_app.
Qed.

(** C5: the form accepts the description NA with a positive amount; the
    row is written with the cell text NA, which the reader takes for a
    missing value, so the loaded description is NaN and not the text
    entered. *)
Theorem description_NA_read_as_missing :
  let st :=
    {| Form.trans_type := INCOME; Form.category := "เงินรายวัน";
       Form.description := "NA"; Form.amount := 10000;
       Form.show_success_message := false |} in
  let row := new_data sample_day st in
  Form.submittable st = true /\
  append [] row = [row] /\
  to_csv_cell (description row) = "NA" /\
  read_csv_cell (to_csv_cell (description row)) = None /\
  read_csv_cell (to_csv_cell (description row)) <> description row.
Proof. by vm_compute. Qed.

(** ** Category catalog *)

Lemma default_category_cases (t : string) :
  Form.default_category t =
  if String.eqb t "รายรับ" then "เงินรายวัน" else "ค่าอาหาร".
Proof.
  unfold Form.default_category, Form.update_category_options. simpl.
  by destruct (String.eqb t "รายรับ").
Qed.

(** C8: two options for Income, three for Expense; the default category of
    a type is the first option of its list, hence one of its options; and
    picking another type in the selectbox leaves the default category of
    the new type selected. *)
Theorem category_catalog :
  Form.category_options INCOME = ["เงินรายวัน"; "รายได้อื่นๆ"] /\
  Form.category_options EXPENSE = ["ค่าอาหาร"; "ค่าเดินทาง"; "ค่าใช้จ่ายอื่นๆ"] /\
  length (Form.category_options INCOME) = 2%nat /\
  length (Form.category_options EXPENSE) = 3%nat /\
  (forall t, head (Form.category_options t) = Some (Form.default_category t) /\
             Form.default_category t ∈ Form.category_options t) /\
  (forall st t,
     t <> Form.trans_type st ->
     Form.trans_type (Form.select_trans_type t st) = t /\
     Form.category (Form.select_trans_type t st) = Form.default_category t /\
     Form.category (Form.select_trans_type t st) ∈ Form.category_options t).
Proof.
  split; [done|]. split; [done|]. split; [done|]. split; [done|].
  assert (Hdefault : forall t,
    head (Form.category_options t) = Some (Form.default_category t) /\
    Form.default_category t ∈ Form.category_options t).
  { intros t. rewrite default_category_cases. unfold Form.category_options.
    destruct (String.eqb t "รายรับ"); (split; [done|by left]). }
  split; [exact Hdefault|].
  intros st t Hne.
  assert (Hsel : Form.select_trans_type t st =
                 Form.set_category (Form.default_category t)
                   (Form.set_trans_type t st)).
  { unfold Form.select_trans_type.
    destruct (String.eqb_spec t (Form.trans_type st)) as [->|_]; [done|].
    rewrite default_category_cases. unfold Form.update_category_options.
    simpl. by destruct (String.eqb t "รายรับ"). }
  rewrite Hsel. simpl. split; [done|]. split; [done|]. apply Hdefault.
Qed.

(** From the initial form (type Income), picking Expense selects the first
    expense category. *)
Lemma category_catalog_witness :
  EXPENSE <> Form.trans_type Form.initial /\
  Form.trans_type (Form.select_trans_type EXPENSE Form.initial) = EXPENSE /\
  Form.category (Form.select_trans_type EXPENSE Form.initial) = "ค่าอาหาร" /\
  "ค่าอาหาร" ∈ Form.category_options EXPENSE.
Proof.
  assert (Hne : EXPENSE <> Form.trans_type Form.initial) by (by vm_compute).
  destruct category_catalog as (_ & _ & _ & _ & _ & Hsel).
  destruct (Hsel Form.initial EXPENSE Hne) as (Ht & Hc & Hin).
  split; [exact Hne|]. split; [exact Ht|]. split; [exact Hc|]. exact Hin.
Defined.

(** ** The chart series of a ledger *)

Lemma by_category_NoDup (records : DataFrame) : NoDup ((groupby_sum records).*1).
Proof. apply sorted_index_NoDup, groupby_sum_grouped. Qed.

(** What [Series.get(k, 0)] returns on a groupby sum: the sum of the
    amounts of the records of category [k], 0 when there is none. *)
Lemma get_groupby_sum (records : DataFrame) (k : string) :
  get (groupby_sum records) k 0 = amounts_sum (in_category k records).
Proof.
  destruct (groupby_sum_grouped records) as [Hsorted Hs].
  destruct (in_category k records) as [|r l] eqn:Hl.
  - rewrite get_absent; [done|].
    intros [v Hin]%elem_of_keys. apply Hs in Hin as [Hex _].
    apply has_category_iff in Hex. done.
  - apply get_elem; [by apply sorted_index_NoDup|].
    apply Hs. split; [|by rewrite Hl].
    apply has_category_iff. by rewrite Hl.
Qed.

(** Every bar of the chart is the total of one type in one category. *)
Lemma chart_series_of_ledger (df : DataFrame) (i : nat) (c : string) :
  let '(cats, iv, ev) :=
    build_series (income_by_category df) (expense_by_category df) in
  cats !! i = Some c ->
  iv !! i = Some (amounts_sum (in_category c (income_df df))) /\
  ev !! i = Some (amounts_sum (in_category c (expense_df df))).
Proof.
  unfold build_series. intros Hc.
  rewrite !list_lookup_fmap, Hc. simpl.
  unfold income_by_category, expense_by_category.
  by rewrite !get_groupby_sum.
Qed.

(** ** Load: the remaining branches *)

(** A file without any column to parse loads as the empty ledger; every
    other exception of the first reading is not caught. *)
Lemma load_other_branches (read_csv : encoding -> string -> outcome (list raw_row))
    (strptime : string -> option calendar) (bytes : string) :
  bytes <> "" ->
  (read_csv Utf8Sig bytes = Raised EmptyDataError ->
   load read_csv strptime (Some bytes) = Returned []) /\
  (read_csv Utf8Sig bytes = Raised OtherError ->
   load read_csv strptime (Some bytes) = Raised OtherError).
Proof.
  intros Hne. unfold load. rewrite (nonempty_bytes bytes Hne).
  split; intros Hread; by rewrite (read_frame_raised _ _ _ _ _ Hread).
Qed.

(** ** Worked examples *)

Example total_two_rows :
  total [sample_row INCOME (Some "เงินรายวัน") 1000;
         sample_row INCOME (Some "เงินรายวัน") 550] = 1550.
Proof. reflexivity. Qed.

Example groupby_sum_sorted_keys :
  groupby_sum [sample_row EXPENSE (Some "ค่าเดินทาง") 5000;
               sample_row EXPENSE (Some "ค่าอาหาร") 10000;
               sample_row EXPENSE None 1000;
               sample_row EXPENSE (Some "ค่าอาหาร") 2550] =
  [("ค่าอาหาร", 12550); ("ค่าเดินทาง", 5000)].
Proof. reflexivity. Qed.

Example build_series_shared_category :
  build_series [("ก", 100); ("ข", 200)] [("ข", 50); ("ค", 70)] =
  (["ก"; "ข"; "ค"], [100; 200; 0], [0; 50; 70]).
Proof. reflexivity. Qed.

Example dashboard_mixed_ledger :
  dashboard [sample_row INCOME (Some "เงินรายวัน") 30000;
             sample_row "โอน" (Some "อื่นๆ") 700;
             sample_row EXPENSE (Some "ค่าอาหาร") 4500] =
  Some {| income_table := [sample_row INCOME (Some "เงินรายวัน") 30000];
          expense_table := [sample_row EXPENSE (Some "ค่าอาหาร") 4500];
          summary := (30000, 4500, 25500);
          chart := Chart (["เงินรายวัน"; "ค่าอาหาร"], [30000; 0], [0; 4500]) |}.
Proof. reflexivity. Qed.

Example read_csv_cell_examples :
  read_csv_cell "ข้าวกลางวัน" = Some "ข้าวกลางวัน" /\
  read_csv_cell "" = None /\
  read_csv_cell "N/A" = None /\
  read_csv_cell "null" = None.
Proof. by vm_compute. Qed.

(** * Further properties of the script *)

(** ** Order of the rows *)












(** ** Index.unique *)

Lemma unique_from_elem (seen labels : list string) (x : string) :
  x ∈ unique_from seen labels <-> x ∈ labels /\ x ∉ seen.
Proof.
  revert seen. induction labels as [|y rest IH]; intros seen; simpl.
  - rewrite elem_of_nil. naive_solver.
  - case_bool_decide as Hy.
    + rewrite IH, elem_of_cons. naive_solver.
    + rewrite elem_of_cons, IH, !elem_of_cons.
      destruct (decide (x = y)) as [->|Hne]; naive_solver.
Qed.

Lemma unique_from_NoDup_out (seen labels : list string) :
  NoDup (unique_from seen labels).
Proof.
  revert seen. induction labels as [|y rest IH]; intros seen; simpl.
  - constructor.
  - case_bool_decide as Hy; [apply IH|].
    constructor; [|apply IH].
    rewrite unique_from_elem, elem_of_cons. naive_solver.
Qed.

Lemma unique_from_sublist (seen labels : list string) :
  unique_from seen labels `sublist_of` labels.
Proof.
  revert seen. induction labels as [|y rest IH]; intros seen; simpl.
  - constructor.
  - case_bool_decide; [by apply sublist_cons|by apply sublist_skip].
Qed.

(** X2: [Index.unique] keeps each label once, in the order of the first
    appearances: the result has no repeated label, the same labels as the
    input, is a subsequence of it, and a second pass changes nothing. *)
Theorem unique_first_appearances (labels : list string) :
  NoDup (unique labels) /\
  (forall x, x ∈ unique labels <-> x ∈ labels) /\
  unique labels `sublist_of` labels /\
  unique (unique labels) = unique labels /\
  (forall x rest, unique (x :: rest) = x :: filter (fun y => y <> x) (unique rest)).
Proof.
  split; [apply unique_from_NoDup_out|].
  split.
  { intros x. unfold unique. rewrite unique_from_elem.
    pose proof (not_elem_of_nil x). naive_solver. }
  split; [apply unique_from_sublist|].
  split.
  { unfold unique at 1. rewrite unique_from_NoDup by apply unique_from_NoDup_out.
    apply filter_all, Forall_forall. intros x _. apply not_elem_of_nil. }
  intros x rest. unfold unique. simpl. f_equal.
  generalize (@nil string) as seen. 
  induction rest as [|y rest IH]; intros seen; [done|]. simpl.
  rewrite (bool_decide_ext (y ∈ x :: seen) (y = x \/ y ∈ seen)) by apply elem_of_cons.
  destruct (decide (y = x)) as [->|Hne].
  - rewrite bool_decide_true by (by left).
    case_bool_decide as Hs.
    + apply IH.
    + rewrite filter_cons_False by (intros ?; done).
      rewrite <- IH. apply unique_from_seen.
      intros z. rewrite !elem_of_cons. naive_solver.
  - case_bool_decide as Hs; case_bool_decide as Hs'; try naive_solver.
    rewrite filter_cons_True by done. f_equal.
    rewrite <- IH. apply unique_from_seen.
    intros z. rewrite !elem_of_cons. naive_solver.
Qed.


Lemma groupby_sum_keys (records : DataFrame) (k : string) :
  k ∈ (groupby_sum records).*1 <->
  exists r, r ∈ records /\ category r = Some k.
Proof.
  destruct (groupby_sum_grouped records) as [_ Hs].
  rewrite elem_of_keys. setoid_rewrite Hs. naive_solver.
Qed.

(** X4: the chart of a ledger.  Its axis holds, once each, exactly the
    categories of the rows of type Income or Expense that have one, and the
    two bars over a category are the income and the expense of the rows of
    that category. *)
Theorem chart_of_ledger (df : DataFrame) :
  let series :=
    build_series (income_by_category df) (expense_by_category df) in
  NoDup series.1.1 /\
  (forall c, c ∈ series.1.1 <->
     exists r, r ∈ df /\ typed_row r /\ category r = Some c) /\
  (forall i c, series.1.1 !! i = Some c ->
     series.1.2 !! i = Some (amounts_sum (in_category c (income_df df))) /\
     series.2 !! i = Some (amounts_sum (in_category c (expense_df df)))).
Proof.
  intros series. unfold series, build_series. cbn [fst snd].
  assert (Hi : NoDup ((income_by_category df).*1)) by apply by_category_NoDup.
  assert (He : NoDup ((expense_by_category df).*1)) by apply by_category_NoDup.
  rewrite all_categories_order by done.
  split.
  { apply NoDup_app. split; [done|]. split; [|by apply NoDup_filter].
    intros c Hc [Hnot _]%list_elem_of_filter. done. }
  split.
  { intros c. rewrite elem_of_app, list_elem_of_filter.
    assert (Hkeys : forall label,
      c ∈ (groupby_sum (select (type_mask label df) df)).*1 <->
      exists r, r ∈ df /\ trans_type r = Some label /\ category r = Some c).
    { intros label. rewrite groupby_sum_keys, select_type_mask.
      setoid_rewrite list_elem_of_filter. naive_solver. }
    unfold income_by_category, expense_by_category, income_df, expense_df.
    destruct (decide (c ∈ (groupby_sum (select (type_mask INCOME df) df)).*1))
      as [Hin|Hnin].
    - split; [intros _|intros _; by left].
      apply Hkeys in Hin as (r & Hr & Ht & Hc). exists r. unfold typed_row. eauto.
    - split.
      + intros [?|[_ Hexp]]; [done|].
        apply Hkeys in Hexp as (r & Hr & Ht & Hc). exists r. unfold typed_row. eauto.
      + intros (r & Hr & [Ht|Ht] & Hc).
        * exfalso. apply Hnin, Hkeys. eauto.
        * right. split; [done|]. apply Hkeys. eauto. }
  intros i c Hc. rewrite !list_lookup_fmap, Hc. simpl.
  unfold income_by_category, expense_by_category.
  by rewrite !get_groupby_sum.
Qed.

(** ** Bars against totals *)









(** ** The session *)

Lemma select_trans_type_cases (t : string) (f : Form.session_state) :
  Form.select_trans_type t f =
  if String.eqb t (Form.trans_type f) then f
  else Form.set_category (Form.default_category t) (Form.set_trans_type t f).
Proof.
  unfold Form.select_trans_type.
  destruct (String.eqb t (Form.trans_type f)); [done|].
  rewrite default_category_cases. unfold Form.update_category_options. simpl.
  by destruct (String.eqb t "รายรับ").
Qed.

Lemma default_category_offered (t : string) :
  Form.default_category t ∈ Form.category_options t.
Proof.
  rewrite default_category_cases. unfold Form.category_options.
  destruct (String.eqb t "รายรับ"); by left.
Qed.

Lemma form_eta (f : Form.session_state) :
  Form.show_success_message f = false ->
  App.set_show_success_message false (App.set_show_success_message true f) = f.
Proof. destruct f; simpl. by intros ->. Qed.

Lemma widget_update_form_ok (ev : App.event) (st : App.state) :
  App.form_ok (App.form st) -> App.delivered ev st = true ->
  App.form_ok (App.form (App.widget_update ev st)).
Proof.
  intros (Ht & Hc & Ha) Hev. unfold App.form_ok.
  destruct ev as [|d|t|c|text|a|]; simpl in *; try done.
  - apply bool_decide_eq_true in Hev. rewrite select_trans_type_cases.
    destruct (String.eqb t (Form.trans_type (App.form st))); [done|].
    simpl. split; [done|]. split; [apply default_category_offered|done].
  - by apply bool_decide_eq_true in Hev.
  - by apply bool_decide_eq_true in Hev.
Qed.

Lemma widget_update_keeps (ev : App.event) (st : App.state) :
  App.session_df (App.widget_update ev st) = App.session_df st /\
  App.disk (App.widget_update ev st) = App.disk st /\
  Form.show_success_message (App.form (App.widget_update ev st)) =
    Form.show_success_message (App.form st).
Proof.
  destruct ev as [|d|t|c|text|a|]; simpl; try done.
  rewrite select_trans_type_cases.
  by destruct (String.eqb t (Form.trans_type (App.form st))).
Qed.

Lemma submittable_entered (d : calendar) (f : Form.session_state) :
  App.form_ok f -> Form.submittable f = true -> App.entered (new_data d f).
Proof.
  intros (Ht & Hc & _) Hs. unfold Form.submittable in Hs.
  apply andb_true_iff in Hs as [Hd Ha].
  exists d, (Form.trans_type f), (Form.category f), (Form.description f).
  simpl. repeat split; try done.
  - apply negb_true_iff, String.eqb_neq in Hd. done.
  - by apply Z.ltb_lt.
Qed.

Section SessionFacts.
Variable read_csv : encoding -> string -> outcome (list raw_row).
Variable strptime : string -> option calendar.
Variable to_csv : DataFrame -> outcome string.


Lemma updated_keeps (ev : App.event) (st : App.state) :
  App.session_df (App.updated ev st) = App.session_df st /\
  App.disk (App.updated ev st) = App.disk st /\
  Form.show_success_message (App.form (App.updated ev st)) =
    Form.show_success_message (App.form st) /\
  (App.form_ok (App.form st) -> App.form_ok (App.form (App.updated ev st))).
Proof.
  unfold App.updated. destruct (App.delivered ev st) eqn:E; [|done].
  destruct (widget_update_keeps ev st) as (? & ? & ?).
  split; [done|]. split; [done|]. split; [done|].
  intros Hok. by apply widget_update_form_ok.
Qed.

(** A run that is not a submission, in a session that holds a ledger. *)
Lemma run_plain (ev : App.event) (st : App.state) (df : DataFrame) :
  App.session_df st = Some df ->
  Form.show_success_message (App.form st) = false ->
  ev <> App.ClickSubmit \/ Form.submittable (App.form st) = false ->
  App.run read_csv strptime to_csv ev st =
  (App.updated ev st,
   Returned {| App.success_shown := false; App.view := dashboard df |}).
Proof.
  intros Hdf Hflag Hev.
  destruct (updated_keeps ev st) as (Hdf' & _ & Hflag' & _).
  unfold App.run.  unfold App.ensure_loaded.
  rewrite Hdf', Hdf.
  assert (Hdisp : App.display df (App.updated ev st) =
    (App.updated ev st,
     Returned {| App.success_shown := false; App.view := dashboard df |})).
  { unfold App.display. by rewrite Hflag', Hflag. }
  destruct ev; try done.
  destruct Hev as [?|Hs]; [done|]. simpl. by rewrite Hs.
Qed.

(** A submission, in a session that holds a ledger. *)
Lemma run_submit (st : App.state) (df : DataFrame) :
  App.session_df st = Some df ->
  Form.submittable (App.form st) = true ->
  App.run read_csv strptime to_csv App.ClickSubmit st =
  App.submit to_csv df st.
Proof.
  intros Hdf Hs. unfold App.run, App.ensure_loaded, App.updated.
  cbn [App.delivered App.widget_update]. rewrite Hs. by rewrite Hdf.
Qed.

Lemma display_keeps (df : DataFrame) (st : App.state) :
  App.session_df (App.display df st).1 = App.session_df st /\
  App.disk (App.display df st).1 = App.disk st /\
  Form.show_success_message (App.form (App.display df st).1) = false /\
  (App.form_ok (App.form st) -> App.form_ok (App.form (App.display df st).1)) /\
  exists scr, (App.display df st).2 = Returned scr /\
    App.success_shown scr = Form.show_success_message (App.form st) /\
    App.view scr = dashboard df.
Proof.
  unfold App.display.
  destruct (Form.show_success_message (App.form st)) eqn:E; simpl.
  - split; [done|]. split; [done|]. split; [done|].
    split; [by intros (? & ? & ?)|]. eauto.
  - split; [done|]. split; [done|]. split; [done|]. split; [done|]. eauto.
Qed.

Lemma submit_keeps (df : DataFrame) (st : App.state) :
  let st' := (App.submit to_csv df st).1 in
  let df' := append df (new_data (App.date_value st) (App.form st)) in
  App.session_df st' = Some df' /\
  Form.show_success_message (App.form st') =
    match to_csv df' with
    | Returned _ => false
    | Raised _ => Form.show_success_message (App.form st)
    end /\
  App.disk st' =
    match to_csv df' with
    | Returned bytes => Some bytes
    | Raised _ => App.disk st
    end /\
  (App.form_ok (App.form st) -> App.form_ok (App.form st')).
Proof.
  unfold App.submit. simpl.
  destruct (to_csv (append df (new_data (App.date_value st) (App.form st))))
    as [bytes|e]; simpl; [|done].
  split; [done|]. split; [done|]. split; [done|]. by intros (? & ? & ?).
Qed.

(** One run keeps the form well formed and leaves the flag of the success
    message cleared. *)
Lemma run_keeps_form (ev : App.event) (st : App.state) :
  App.form_ok (App.form st) ->
  Form.show_success_message (App.form st) = false ->
  App.form_ok (App.form (App.run read_csv strptime to_csv ev st).1) /\
  Form.show_success_message
    (App.form (App.run read_csv strptime to_csv ev st).1) = false.
Proof.
  intros Hok Hflag.
  destruct (updated_keeps ev st) as (_ & _ & Hflag' & Hok').
  specialize (Hok' Hok). rewrite Hflag in Hflag'.
  unfold App.run. 
  set (st1 := App.updated ev st) in *.
  assert (Hbody : forall st2 df,
    App.form st2 = App.form st1 ->
    let r := match ev with
             | App.ClickSubmit =>
                 if App.delivered ev st then App.submit to_csv df st2
                 else App.display df st2
             | _ => App.display df st2
             end in
    App.form_ok (App.form r.1) /\
    Form.show_success_message (App.form r.1) = false).
  { intros st2 df Hform.
    assert (Hd : App.form_ok (App.form (App.display df st2).1) /\
      Form.show_success_message (App.form (App.display df st2).1) = false).
    { destruct (display_keeps df st2) as (_ & _ & ? & Hk & _).
      split; [|done]. apply Hk. by rewrite Hform. }
    assert (Hs : App.form_ok (App.form (App.submit to_csv df st2).1) /\
      Form.show_success_message (App.form (App.submit to_csv df st2).1) = false).
    { destruct (submit_keeps df st2) as (_ & Hf & _ & Hk).
      split; [apply Hk; by rewrite Hform|].
      rewrite Hf, Hform, Hflag'.
      by match goal with |- match ?x with _ => _ end = _ => destruct x end. }
    destruct ev; try done. cbv zeta.
    by destruct (App.delivered App.ClickSubmit st). }
  unfold App.ensure_loaded.
  destruct (App.session_df st1) as [df|].
  - by apply Hbody.
  - destruct (load read_csv strptime (App.disk st1)) as [df|e]; [|done].
    by apply Hbody.
Qed.

Lemma ensure_loaded_cases (st : App.state) :
  match App.ensure_loaded read_csv strptime st with
  | (st2, Returned df) =>
      App.session_df st2 = Some df /\
      App.form st2 = App.form st /\ App.disk st2 = App.disk st /\
      App.date_value st2 = App.date_value st /\
      (App.session_df st = Some df \/
       (App.session_df st = None /\
        load read_csv strptime (App.disk st) = Returned df))
  | (st2, Raised e) =>
      st2 = st /\ App.session_df st = None /\
      load read_csv strptime (App.disk st) = Raised e
  end.
Proof.
  unfold App.ensure_loaded.
  destruct (App.session_df st) as [df|] eqn:Hdf.
  - repeat split; try done. by left.
  - destruct (load read_csv strptime (App.disk st)) as [df|e] eqn:Hload.
    + repeat split; try done. by right.
    + done.
Qed.

(** A run other than a submission leaves file and ledger alone. *)
Lemma run_browse (ev : App.event) (st : App.state) :
  ev <> App.ClickSubmit \/ Form.submittable (App.form st) = false ->
  let st' := (App.run read_csv strptime to_csv ev st).1 in
  App.disk st' = App.disk st /\
  (App.session_df st' = App.session_df st \/
   App.session_df st = None /\
   exists df, load read_csv strptime (App.disk st) = Returned df /\
              App.session_df st' = Some df).
Proof.
  intros Hev. cbv zeta.
  destruct (updated_keeps ev st) as (Hdf & Hdisk & _ & _).
  unfold App.run.
  pose proof (ensure_loaded_cases (App.updated ev st)) as Hload.
  destruct (App.ensure_loaded read_csv strptime (App.updated ev st))
    as [st2 [df|e]].
  - destruct Hload as (Hdf2 & _ & Hdisk2 & _ & Hfrom).
    assert (Hres : App.disk (App.display df st2).1 = App.disk st /\
      (App.session_df (App.display df st2).1 = App.session_df st \/
       App.session_df st = None /\
       exists df0, load read_csv strptime (App.disk st) = Returned df0 /\
                   App.session_df (App.display df st2).1 = Some df0)).
    { destruct (display_keeps df st2) as (Hd1 & Hd2 & _).
      rewrite Hd1, Hd2, Hdisk2, Hdisk, Hdf2. split; [done|].
      rewrite Hdf, Hdisk in Hfrom.
      destruct Hfrom as [Hs|[Hn Hl]]; [left; by rewrite Hs|right; eauto]. }
    destruct ev; try done.
    destruct Hev as [?|Hs]; [done|]. simpl. by rewrite Hs.
  - destruct Hload as (-> & _ & _). simpl. rewrite Hdisk, Hdf. by split; [|left].
Qed.

(** X7: a submission appends the row of the form to the session's ledger,
    writes the whole ledger, shows the success message once, and leaves
    the form as it was. *)
Theorem submit_appends_saves_and_confirms
    (st : App.state) (df : DataFrame) (bytes : string) :
  App.session_df st = Some df ->
  Form.submittable (App.form st) = true ->
  Form.show_success_message (App.form st) = false ->
  to_csv (append df (new_data (App.date_value st) (App.form st))) =
    Returned bytes ->
  let row := new_data (App.date_value st) (App.form st) in
  let result := App.run read_csv strptime to_csv App.ClickSubmit st in
  App.session_df result.1 = Some (df ++ [row]) /\
  App.disk result.1 = Some bytes /\
  App.form result.1 = App.form st /\
  App.date_value result.1 = App.date_value st /\
  result.2 = Returned {| App.success_shown := true;
                         App.view := dashboard (df ++ [row]) |}.
Proof.
  intros Hdf Hs Hflag Hwrite row result. unfold result.
  rewrite (run_submit st df Hdf Hs).
  unfold App.submit. cbv zeta. rewrite Hwrite.
  unfold App.display. cbn. rewrite form_eta by done. done.
Qed.


(** X9: through any sequence of interactions the form holds a type of the
    type selectbox, a category offered for that type and an amount that is
    not negative, and no success message is left pending. *)
Theorem session_keeps_form_valid (events : list App.event) (st : App.state) :
  App.form_ok (App.form st) ->
  Form.show_success_message (App.form st) = false ->
  App.form_ok (App.form (App.run_all read_csv strptime to_csv events st)) /\
  Form.show_success_message
    (App.form (App.run_all read_csv strptime to_csv events st)) = false.
Proof.
  revert st. induction events as [|ev events IH]; intros st Hok Hflag; [done|].
  simpl. destruct (run_keeps_form ev st Hok Hflag).
  by apply IH.
Qed.

(** X10: a run shows the success message exactly when it handles a
    submission. *)
Theorem success_message_only_after_submit
    (ev : App.event) (st : App.state) (scr : App.screen) :
  Form.show_success_message (App.form st) = false ->
  (App.run read_csv strptime to_csv ev st).2 = Returned scr ->
  (App.success_shown scr = true <->
   ev = App.ClickSubmit /\ Form.submittable (App.form st) = true).
Proof.
  intros Hflag.
  destruct (updated_keeps ev st) as (_ & _ & Hflag' & _). rewrite Hflag in Hflag'.
  unfold App.run.
  pose proof (ensure_loaded_cases (App.updated ev st)) as Hload.
  destruct (App.ensure_loaded read_csv strptime (App.updated ev st))
    as [st2 [df|e]]; [|done].
  destruct Hload as (_ & Hform & _).
  assert (Hplain : (App.display df st2).2 = Returned scr ->
                   App.success_shown scr = false).
  { unfold App.display. rewrite Hform, Hflag'. by intros [= <-]. }
  assert (Hsub : (App.submit to_csv df st2).2 = Returned scr ->
                 App.success_shown scr = true).
  { unfold App.submit. cbv zeta.
    match goal with |- context [to_csv ?x] => destruct (to_csv x) end; [|done].
    unfold App.display. cbn. by intros [= <-]. }
  destruct ev; try (intros H%Hplain; rewrite H; naive_solver).
  cbn [App.delivered].
  destruct (Form.submittable (App.form st)) eqn:Hs.
  - intros H%Hsub. by rewrite H.
  - intros H%Hplain. rewrite H. naive_solver.
Qed.

Lemma submission_or_not (ev : App.event) (st : App.state) :
  (ev = App.ClickSubmit /\ Form.submittable (App.form st) = true) \/
  (ev <> App.ClickSubmit \/ Form.submittable (App.form st) = false).
Proof.
  destruct ev; try (by right; left).
  destruct (Form.submittable (App.form st)); [by left|by right; right].
Qed.

(** The ledger of the session after a run, against the ledger before. *)
Lemma run_grows (ev : App.event) (st : App.state) :
  App.form_ok (App.form st) ->
  let st' := (App.run read_csv strptime to_csv ev st).1 in
  match App.session_df st with
  | Some df =>
      exists added, App.session_df st' = Some (df ++ added) /\
        Forall App.entered added /\ (length added <= 1)%nat
  | None =>
      (App.session_df st' = None /\ App.disk st' = App.disk st) \/
      exists loaded added,
        load read_csv strptime (App.disk st) = Returned loaded /\
        App.session_df st' = Some (loaded ++ added) /\
        Forall App.entered added /\ (length added <= 1)%nat
  end.
Proof.
  intros Hok. cbv zeta.
  destruct (submission_or_not ev st) as [[-> Hs]|Hev].
  - (* a submission *)
    unfold App.run.
    assert (Hup : App.updated App.ClickSubmit st = st).
    { unfold App.updated. simpl. by rewrite Hs. }
    rewrite Hup. pose proof (ensure_loaded_cases st) as Hload.
    destruct (App.ensure_loaded read_csv strptime st) as [st2 [df|e]].
    + destruct Hload as (_ & Hform & _ & Hdate & Hfrom).
      cbn [App.delivered]. rewrite Hs.
      destruct (submit_keeps df st2) as (Hdf' & _).
      rewrite Hdf', Hform, Hdate.
      assert (Hrow : Forall App.entered
                [new_data (App.date_value st) (App.form st)]).
      { constructor; [by apply submittable_entered|constructor]. }
      destruct Hfrom as [Hsome|[Hnone Hl]].
      * rewrite Hsome. eexists. split; [done|]. split; [done|]. simpl. lia.
      * rewrite Hnone. right. eexists _, _.
        split; [done|]. split; [done|]. split; [done|]. simpl. lia.
    + destruct Hload as (-> & Hnone & _). rewrite Hnone. by left.
  - (* any other run *)
    destruct (run_browse ev st Hev) as (Hdisk & Hdf).
    destruct (App.session_df st) as [df|] eqn:Hst.
    + exists []. rewrite app_nil_r.
      destruct Hdf as [->|[? _]]; [|done].
      split; [done|]. split; [constructor|simpl; lia].
    + destruct Hdf as [Hn|(_ & df & Hl & Hdf)]; [left; by rewrite Hn|].
      right. exists df, []. rewrite app_nil_r.
      split; [done|]. split; [done|]. split; [constructor|simpl; lia].
Qed.

Lemma run_all_grows (events : list App.event) (st : App.state) (df : DataFrame) :
  App.session_df st = Some df ->
  App.form_ok (App.form st) ->
  Form.show_success_message (App.form st) = false ->
  exists added,
    App.session_df (App.run_all read_csv strptime to_csv events st) =
      Some (df ++ added) /\
    Forall App.entered added /\ (length added <= length events)%nat.
Proof.
  revert st df. induction events as [|ev events IH]; intros st df Hdf Hok Hflag.
  - exists []. rewrite app_nil_r. split; [done|]. split; [constructor|done].
  - simpl.
    destruct (run_keeps_form ev st Hok Hflag)
      as [Hok' Hflag'].
    pose proof (run_grows ev st Hok) as Hstep. cbv zeta in Hstep.
    rewrite Hdf in Hstep. destruct Hstep as (added1 & Hdf1 & Hent1 & Hlen1).
    destruct (IH _ _ Hdf1 Hok' Hflag') as (added2 & Hdf2 & Hent2 & Hlen2).
    exists (added1 ++ added2). rewrite Hdf2, app_assoc.
    split; [done|]. split; [by apply Forall_app|].
    rewrite length_app. lia.
Qed.

(** X11: in a session that holds a ledger, whatever the user does, the
    ledger keeps its rows in place and only gains rows entered through the
    form, at most one per interaction, at its end. *)
Theorem ledger_only_grows
    (events : list App.event) (st : App.state) (df : DataFrame) :
  App.session_df st = Some df ->
  App.form_ok (App.form st) ->
  Form.show_success_message (App.form st) = false ->
  exists added,
    App.session_df (App.run_all read_csv strptime to_csv events st) =
      Some (df ++ added) /\
    Forall App.entered added /\ (length added <= length events)%nat.
Proof. apply run_all_grows. Qed.

Lemma form_ok_initial : App.form_ok Form.initial.
Proof. split; [by left|]. split; [by left|done]. Qed.

(** X12: in a session opened on a file, the ledger is either still missing
    (every run so far failed to load the file) or it is what [load] made
    of that file, followed by rows entered through the form. *)
Theorem fresh_session_ledger
    (today : calendar) (file : option string) (events : list App.event) :
  let st' :=
    App.run_all read_csv strptime to_csv events (App.fresh today file) in
  (App.session_df st' = None /\ App.disk st' = file) \/
  exists loaded added,
    load read_csv strptime file = Returned loaded /\
    App.session_df st' = Some (loaded ++ added) /\
    Forall App.entered added.
Proof.
  cbv zeta.
  assert (Hgen : forall st,
    App.session_df st = None -> App.form_ok (App.form st) ->
    Form.show_success_message (App.form st) = false ->
    let st' := App.run_all read_csv strptime to_csv events st in
    (App.session_df st' = None /\ App.disk st' = App.disk st) \/
    exists loaded added,
      load read_csv strptime (App.disk st) = Returned loaded /\
      App.session_df st' = Some (loaded ++ added) /\
      Forall App.entered added).
  { induction events as [|ev events IH]; intros st Hnone Hok Hflag.
    - by left.
    - simpl.
      destruct (run_keeps_form ev st Hok Hflag)
        as [Hok' Hflag'].
      pose proof (run_grows ev st Hok) as Hstep. cbv zeta in Hstep.
      rewrite Hnone in Hstep.
      destruct Hstep as [[Hnone' Hdisk']|(loaded & added1 & Hl & Hdf1 & Hent1 & _)].
      + destruct (IH _ Hnone' Hok' Hflag') as [[? Hd]|(l & a & Hl & ? & ?)].
        * left. by rewrite Hd.
        * right. exists l, a. by rewrite <- Hdisk'.
      + destruct (run_all_grows events _ _ Hdf1 Hok' Hflag')
          as (added2 & Hdf2 & Hent2 & _).
        right. exists loaded, (added1 ++ added2). rewrite Hdf2, app_assoc.
        split; [done|]. split; [done|]. by apply Forall_app. }
  apply (Hgen (App.fresh today file)); [done|apply form_ok_initial|done].
Qed.

(** X13: after a run that returns, the file holds what [to_csv] writes for
    the session's ledger if that was so before the run, or if the run
    handled a submission. *)
Theorem file_follows_ledger
    (ev : App.event) (st : App.state) (scr : App.screen) :
  (App.run read_csv strptime to_csv ev st).2 = Returned scr ->
  App.in_sync to_csv st \/
  (ev = App.ClickSubmit /\ Form.submittable (App.form st) = true) ->
  App.in_sync to_csv (App.run read_csv strptime to_csv ev st).1.
Proof.
  intros Hret Hbefore.
  destruct (submission_or_not ev st) as [[-> Hs]|Hev].
  - revert Hret. unfold App.run.
    assert (Hup : App.updated App.ClickSubmit st = st).
    { unfold App.updated. simpl. by rewrite Hs. }
    rewrite Hup.
    destruct (App.ensure_loaded read_csv strptime st) as [st2 [df|e]]; [|done].
    cbn [App.delivered]. rewrite Hs.
    destruct (submit_keeps df st2) as (Hdf' & _ & Hdisk' & _).
    unfold App.submit in *. cbv zeta in *.
    destruct (to_csv (append df (new_data (App.date_value st2) (App.form st2))))
      as [bytes|e] eqn:Hw; [|done].
    intros _. exists (append df (new_data (App.date_value st2) (App.form st2))), bytes.
    done.
  - destruct Hbefore as [(df & bytes & Hdf & Hdisk & Hw)|[-> Hs]].
    + destruct (run_browse ev st Hev) as (Hd & Hl). cbv zeta in Hl.
      exists df, bytes. rewrite Hd. split; [|done].
      destruct Hl as [->|[Hn _]]; [done|congruence].
    + destruct Hev as [?|Hn]; [done|congruence].
Qed.

Lemma run_loaded_any_reader (ev : App.event) (st : App.state) (df : DataFrame)
    (read_csv' : encoding -> string -> outcome (list raw_row))
    (strptime' : string -> option calendar) :
  App.session_df st = Some df ->
  App.run read_csv strptime to_csv ev st =
  App.run read_csv' strptime' to_csv ev st.
Proof.
  intros Hdf. destruct (updated_keeps ev st) as (Hdf' & _).
  unfold App.run, App.ensure_loaded. by rewrite Hdf', Hdf.
Qed.

(** X14: once the session holds a ledger the file is never read again: what
    the reader would make of the file has no influence on any later run. *)
Theorem ledger_read_once (events : list App.event) (st : App.state)
    (df : DataFrame)
    (read_csv' : encoding -> string -> outcome (list raw_row))
    (strptime' : string -> option calendar) :
  App.session_df st = Some df ->
  App.run_all read_csv strptime to_csv events st =
  App.run_all read_csv' strptime' to_csv events st.
Proof.
  revert st df. induction events as [|ev events IH]; intros st df Hdf; [done|].
  simpl. rewrite <- (run_loaded_any_reader ev st df read_csv' strptime' Hdf).
  assert (Hnext : exists df', App.session_df
      (App.run read_csv strptime to_csv ev st).1 = Some df').
  { destruct (submission_or_not ev st) as [[-> Hs]|Hev].
    - rewrite (run_submit st df Hdf Hs).
      destruct (submit_keeps df st) as (H & _). eauto.
    - destruct (run_browse ev st Hev) as (_ & [H|[H _]]); [|congruence].
      cbv zeta in H. rewrite H. eauto. }
  destruct Hnext as [df' Hdf']. by apply (IH _ df').
Qed.

(** X15: interactions other than a submission never write the file and never
    change a ledger the session holds. *)
Theorem browsing_never_writes (events : list App.event) (st : App.state) :
  Forall (fun ev => ev <> App.ClickSubmit) events ->
  App.disk (App.run_all read_csv strptime to_csv events st) = App.disk st /\
  (forall df, App.session_df st = Some df ->
     App.session_df (App.run_all read_csv strptime to_csv events st) = Some df).
Proof.
  intros Hall. revert st. induction Hall as [|ev events Hev _ IH]; intros st; [done|].
  simpl. destruct (run_browse ev st (or_introl Hev)) as (Hdisk & Hdf).
  cbv zeta in Hdf. destruct (IH (App.run read_csv strptime to_csv ev st).1)
    as [IHd IHl].
  split; [by rewrite IHd|].
  intros df Hst. apply IHl. destruct Hdf as [->|[? _]]; [done|congruence].
Qed.
End SessionFacts.

(** ** Load: which exceptions escape *)


(** ** Examples of sessions *)


(** Submitting the lunch form in a session that holds one row. *)
Lemma submit_appends_saves_and_confirms_witness :
  let st := ready_session in
  let row := new_data sample_day lunch_form in
  App.session_df st = Some [sample_row INCOME (Some "เงินรายวัน") 30000] /\
  Form.submittable (App.form st) = true /\
  Form.show_success_message (App.form st) = false /\
  sample_to_csv [sample_row INCOME (Some "เงินรายวัน") 30000; row] =
    Returned "x,ข้าวกลางวัน" /\
  App.disk (App.run plain_read_csv sample_strptime sample_to_csv
              App.ClickSubmit st).1 = Some "x,ข้าวกลางวัน" /\
  App.session_df (App.run plain_read_csv sample_strptime sample_to_csv
                    App.ClickSubmit st).1 =
    Some [sample_row INCOME (Some "เงินรายวัน") 30000; row].
Proof.
  intros st row.
  assert (Hdf : App.session_df st =
                Some [sample_row INCOME (Some "เงินรายวัน") 30000])
    by reflexivity.
  assert (Hs : Form.submittable (App.form st) = true) by reflexivity.
  assert (Hf : Form.show_success_message (App.form st) = false) by reflexivity.
  assert (Hw : sample_to_csv
            (append [sample_row INCOME (Some "เงินรายวัน") 30000]
               (new_data (App.date_value st) (App.form st))) =
          Returned "x,ข้าวกลางวัน") by reflexivity.
  destruct (submit_appends_saves_and_confirms plain_read_csv sample_strptime
              sample_to_csv st _ _ Hdf Hs Hf Hw) as (Hl & Hd & _).
  split; [exact Hdf|]. split; [exact Hs|]. split; [exact Hf|].
  split; [exact Hw|]. split; [exact Hd|exact Hl].
Defined.


(** Filling the form from a fresh session and submitting. *)
Lemma session_keeps_form_valid_witness :
  let events := [App.PickType EXPENSE; App.EditDescription "ข้าว";
                 App.EditAmount 4500; App.ClickSubmit] in
  let st := App.fresh sample_day None in
  App.form_ok (App.form st) /\
  Form.show_success_message (App.form st) = false /\
  App.form_ok (App.form (App.run_all plain_read_csv sample_strptime
                           sample_to_csv events st)) /\
  Form.show_success_message
    (App.form (App.run_all plain_read_csv sample_strptime
                 sample_to_csv events st)) = false.
Proof.
  intros events st.
  assert (Hok : App.form_ok (App.form st)) by apply form_ok_initial.
  assert (Hf : Form.show_success_message (App.form st) = false) by reflexivity.
  destruct (session_keeps_form_valid plain_read_csv sample_strptime
              sample_to_csv events st Hok Hf) as [Hok' Hf'].
  split; [exact Hok|]. split; [exact Hf|]. split; [exact Hok'|exact Hf'].
Defined.

(** The run of a submission shows the message. *)
Lemma success_message_only_after_submit_witness :
  let st := ready_session in
  let row := new_data sample_day lunch_form in
  let scr := {| App.success_shown := true;
                App.view := dashboard
                  [sample_row INCOME (Some "เงินรายวัน") 30000; row] |} in
  Form.show_success_message (App.form st) = false /\
  (App.run plain_read_csv sample_strptime sample_to_csv
     App.ClickSubmit st).2 = Returned scr /\
  (App.success_shown scr = true <->
   App.ClickSubmit = App.ClickSubmit /\
   Form.submittable (App.form st) = true).
Proof.
  intros st row scr.
  assert (Hf : Form.show_success_message (App.form st) = false) by reflexivity.
  assert (Hr : (App.run plain_read_csv sample_strptime sample_to_csv
                  App.ClickSubmit st).2 = Returned scr) by reflexivity.
  split; [exact Hf|]. split; [exact Hr|].
  exact (success_message_only_after_submit plain_read_csv sample_strptime
           sample_to_csv App.ClickSubmit st scr Hf Hr).
Defined.

(** Two submissions in a row add the same row twice, after the old one. *)
Lemma ledger_only_grows_witness :
  let st := ready_session in
  let events := [App.ClickSubmit; App.Rerun; App.ClickSubmit] in
  App.session_df st = Some [sample_row INCOME (Some "เงินรายวัน") 30000] /\
  App.form_ok (App.form st) /\
  Form.show_success_message (App.form st) = false /\
  exists added,
    App.session_df (App.run_all plain_read_csv sample_strptime sample_to_csv
                      events st) =
      Some ([sample_row INCOME (Some "เงินรายวัน") 30000] ++ added) /\
    Forall App.entered added /\ (length added <= 3)%nat.
Proof.
  intros st events.
  assert (Hdf : App.session_df st =
                Some [sample_row INCOME (Some "เงินรายวัน") 30000])
    by reflexivity.
  assert (Hok : App.form_ok (App.form st)).
  { split; [by right; left|]. split; [by left|done]. }
  assert (Hf : Form.show_success_message (App.form st) = false) by reflexivity.
  split; [exact Hdf|]. split; [exact Hok|]. split; [exact Hf|].
  exact (ledger_only_grows plain_read_csv sample_strptime sample_to_csv
           events st _ Hdf Hok Hf).
Defined.

(** After a submission the file holds the written ledger. *)
Lemma file_follows_ledger_witness :
  let st := ready_session in
  let row := new_data sample_day lunch_form in
  let scr := {| App.success_shown := true;
                App.view := dashboard
                  [sample_row INCOME (Some "เงินรายวัน") 30000; row] |} in
  (App.run plain_read_csv sample_strptime sample_to_csv
     App.ClickSubmit st).2 = Returned scr /\
  Form.submittable (App.form st) = true /\
  App.in_sync sample_to_csv
    (App.run plain_read_csv sample_strptime sample_to_csv
       App.ClickSubmit st).1.
Proof.
  intros st row scr.
  assert (Hr : (App.run plain_read_csv sample_strptime sample_to_csv
                  App.ClickSubmit st).2 = Returned scr) by reflexivity.
  assert (Hs : Form.submittable (App.form st) = true) by reflexivity.
  split; [exact Hr|]. split; [exact Hs|].
  exact (file_follows_ledger plain_read_csv sample_strptime sample_to_csv
           App.ClickSubmit st scr Hr (or_intror (conj eq_refl Hs))).
Defined.

(** The same interactions under two readers that disagree on the file. *)
Lemma ledger_read_once_witness :
  let st := ready_session in
  let events := [App.PickType INCOME; App.ClickSubmit; App.Rerun] in
  App.session_df st = Some [sample_row INCOME (Some "เงินรายวัน") 30000] /\
  plain_read_csv Utf8Sig "x" <> legacy_read_csv Utf8Sig "x" /\
  App.run_all plain_read_csv sample_strptime sample_to_csv events st =
  App.run_all legacy_read_csv sample_strptime sample_to_csv events st.
Proof.
  intros st events.
  assert (Hdf : App.session_df st =
                Some [sample_row INCOME (Some "เงินรายวัน") 30000])
    by reflexivity.
  split; [exact Hdf|]. split; [done|].
  exact (ledger_read_once plain_read_csv sample_strptime sample_to_csv
           events st _ legacy_read_csv sample_strptime Hdf).
Defined.

(** Changing the form and refreshing leaves the file as it was. *)
Lemma browsing_never_writes_witness :
  let st := ready_session in
  let events := [App.PickType INCOME; App.EditAmount 100; App.Rerun] in
  Forall (fun ev => ev <> App.ClickSubmit) events /\
  App.disk (App.run_all plain_read_csv sample_strptime sample_to_csv
              events st) = Some "x" /\
  App.session_df (App.run_all plain_read_csv sample_strptime sample_to_csv
                    events st) =
    Some [sample_row INCOME (Some "เงินรายวัน") 30000].
Proof.
  intros st events.
  assert (Hall : Forall (fun ev => ev <> App.ClickSubmit) events).
  { repeat constructor; done. }
  destruct (browsing_never_writes plain_read_csv sample_strptime sample_to_csv
              events st Hall) as [Hd Hl].
  split; [exact Hall|]. split; [exact Hd|]. by apply Hl.
Defined.

(** The chart of a three-row ledger: one tick per category, each bar the
    total of its type there. *)
Lemma chart_of_ledger_witness :
  let df := [sample_row INCOME (Some "เงินรายวัน") 30000;
             sample_row EXPENSE (Some "ค่าอาหาร") 4500;
             sample_row EXPENSE (Some "ค่าอาหาร") 2500] in
  let series :=
    build_series (income_by_category df) (expense_by_category df) in
  series.1.1 !! 1%nat = Some "ค่าอาหาร" /\
  series.1.2 !! 1%nat = Some 0 /\
  series.2 !! 1%nat = Some 7000.
Proof.
  intros df series.
  assert (Hc : series.1.1 !! 1%nat = Some "ค่าอาหาร") by reflexivity.
  destruct (chart_of_ledger df) as (_ & _ & Hbars).
  destruct (Hbars 1%nat "ค่าอาหาร" Hc) as [Hi He].
  split; [exact Hc|]. split; [exact Hi|exact He].
Defined.

